(** * excel-pages-to-pdf: a shallow embedding of [app.py]

    The Flask application in [app.py] takes an uploaded workbook, turns every
    non-empty sheet into a PDF table (reshaping Arabic text on the way) and
    sends the PDFs back as one zip archive.  This file embeds the helpers
    ([allowed_file], [sanitize_filename], [reshape_rtl], [df_to_table_data])
    and the request handler [convert], and proves the properties the
    specification states about them.

    Conventions of the embedding:
    - a Python [str] is a list of Unicode codepoints ([pystr]);
    - a cell value is a tagged scalar ([Cell]);
    - a [pandas.DataFrame] is its column labels plus its rows;
    - functions of third-party libraries ([arabic_reshaper.reshape],
      [bidi.algorithm.get_display], [werkzeug.utils.secure_filename], ...)
      are parameters of the section that holds the code calling them;
    - the effects of [convert] (files written in the work directory, messages
      flashed, the response) are made explicit in its result. *)

From Stdlib Require Import String Ascii DecimalString.
From Stdlib Require Import List ZArith Bool Lia.
Import ListNotations.
Open Scope Z_scope.

(* ================================================================= *)
(** ** Python strings *)

Definition codepoint := Z.
Definition pystr := list codepoint.

(** An ASCII literal as a Python string. *)
Fixpoint lit (s : string) : pystr :=
  match s with
  | EmptyString => []
  | String c r => Z.of_N (N_of_ascii c) :: lit r
  end.

Definition pystr_eqb (a b : pystr) : bool :=
  if list_eq_dec Z.eq_dec a b then true else false.

(** [c in s] for a one-character [c]. *)
Definition char_in (c : codepoint) (s : pystr) : bool :=
  existsb (Z.eqb c) s.

(** [str.isspace] on one codepoint: the whitespace set [str.strip()] uses when
    called without argument (CPython's [_PyUnicode_IsWhitespace]). *)
Definition py_isspace (c : codepoint) : bool :=
  ((9 <=? c) && (c <=? 13)) || ((28 <=? c) && (c <=? 32))
  || (c =? 133) || (c =? 160) || (c =? 5760)
  || ((8192 <=? c) && (c <=? 8202))
  || (c =? 8232) || (c =? 8233) || (c =? 8239) || (c =? 8287)
  || (c =? 12288).

Fixpoint lstrip (s : pystr) : pystr :=
  match s with
  | [] => []
  | c :: r => if py_isspace c then lstrip r else s
  end.

Definition rstrip (s : pystr) : pystr := rev (lstrip (rev s)).

(** [s.strip()] *)
Definition strip (s : pystr) : pystr := rstrip (lstrip s).

(** [s.replace(c, by)] for a one-character [c]. *)
Definition replace_char (c : codepoint) (by_ : pystr) (s : pystr) : pystr :=
  flat_map (fun x => if x =? c then by_ else [x]) s.

(** The text after the last occurrence of [sep], when there is one:
    [s.rsplit(sep, 1)[1]]. *)
Fixpoint after_last (sep : codepoint) (s : pystr) : option pystr :=
  match s with
  | [] => None
  | c :: r =>
      match after_last sep r with
      | Some t => Some t
      | None => if c =? sep then Some r else None
      end
  end.

(* ================================================================= *)
(** ** Cells *)

(** A scalar as pandas hands it to the application.  [CNone] is Python's
    [None], [CNaN] the float not-a-number that pandas uses for a missing cell,
    [CNaT] its missing timestamp.  [CScalar] stands for every other scalar that
    is not missing (a float, a timestamp, ...), identified by its canonical
    text, which is all the application ever asks of it ([str]). *)
Inductive Cell : Type :=
| CNone
| CNaN
| CNaT
| CStr (s : pystr)
| CInt (n : Z)
| CBool (b : bool)
| CScalar (text : pystr).

(** [str(x)] *)
Definition py_str (x : Cell) : pystr :=
  match x with
  | CNone => lit "None"
  | CNaN => lit "nan"
  | CNaT => lit "NaT"
  | CStr s => s
  | CInt n => lit (NilZero.string_of_int (Z.to_int n))
  | CBool true => lit "True"
  | CBool false => lit "False"
  | CScalar t => t
  end.

(** [pd.isna(x)] on a scalar. *)
Definition isna (x : Cell) : bool :=
  match x with
  | CNone | CNaN | CNaT => true
  | _ => false
  end.

(* ================================================================= *)
(** ** [sanitize_filename] *)

(** The raw string [invalid] of the source, by codepoint: backslash, slash,
    colon, asterisk, question mark, double quote, less-than, greater-than,
    vertical bar. *)
Definition invalid : pystr := [92; 47; 58; 42; 63; 34; 60; 62; 124].

Definition sanitize_filename (name : pystr) : pystr :=
  let s := strip (filter (fun c => negb (char_in c invalid)) name) in
  match s with
  | [] => lit "sheet"
  | _ => s
  end.

(** What the specification words say of the sanitized name: the illegal
    characters removed, every other character kept, the default name when
    nothing is left.  Compared with [sanitize_filename] below. *)
Definition sanitize_filename_spec (name : pystr) : pystr :=
  let s := filter (fun c => negb (char_in c invalid)) name in
  match s with
  | [] => lit "sheet"
  | _ => s
  end.

(* ================================================================= *)
(** ** Script detection *)

(** The test of [reshape_rtl] on one character: Arabic block
    U+0600..U+06FF, Arabic Supplement U+0750..U+077F, Arabic Extended-A
    U+08A0..U+08FF. *)
Definition is_arabic (ch : codepoint) : bool :=
  ((0x0600 <=? ch) && (ch <=? 0x06FF))
  || ((0x0750 <=? ch) && (ch <=? 0x077F))
  || ((0x08A0 <=? ch) && (ch <=? 0x08FF)).

Definition has_arabic (s : pystr) : bool := existsb is_arabic s.

(* ================================================================= *)
(** ** Data frames *)

(** A [pandas.DataFrame] as [pd.read_excel] returns it: the sheet's first row
    gives the column labels ([df.columns.tolist()]), the rows below it are
    the data, each with its cells as [df.iterrows()] and [tolist()] yield
    them. *)
Record DataFrame : Type := mkDataFrame {
  columns : list Cell;
  rows : list (list Cell)
}.

(** Every row has one cell per column. *)
Definition well_formed (df : DataFrame) : Prop :=
  Forall (fun r => length r = length (columns df)) (rows df).

(** [df.dropna(how='all')]: the rows whose cells are all missing are dropped. *)
Definition dropna_all (df : DataFrame) : DataFrame :=
  {| columns := columns df;
     rows := filter (fun r => negb (forallb isna r)) (rows df) |}.

(** [df.empty]: one of the two axes has length 0. *)
Definition empty (df : DataFrame) : bool :=
  match columns df, rows df with
  | [], _ => true
  | _, [] => true
  | _, _ => false
  end.

(** The sheet rule of the specification: a sheet is empty when every cell of
    every row, the header row included, is empty/null. *)
Definition all_cells_missing (df : DataFrame) : Prop :=
  Forall (fun r => Forall (fun c => isna c = true) r) (columns df :: rows df).

(** Its boolean form, and the negation the specification calls a non-empty
    sheet: some cell in some row is not empty/null. *)
Definition all_cells_missingb (df : DataFrame) : bool :=
  forallb (forallb isna) (columns df :: rows df).

Definition spec_nonempty (df : DataFrame) : bool :=
  negb (all_cells_missingb df).

(** The entry of a grid at row [i], column [j]. *)
Definition grid_cell (data : list (list pystr)) (i j : nat) : option pystr :=
  match nth_error data i with
  | Some r => nth_error r j
  | None => None
  end.

(* ================================================================= *)
(** ** Page sizes (reportlab.lib.pagesizes) *)

(** A page size is (width, height).  reportlab gives [A4 = (210*mm, 297*mm)];
    the embedding keeps the lengths in millimetres. *)
Definition PageSize : Type := (Z * Z)%type.

Definition A4 : PageSize := (210, 297).

(** [landscape(pagesize)]: the longer side becomes the width. *)
Definition landscape (ps : PageSize) : PageSize :=
  let (a, b) := ps in if a <? b then (b, a) else (a, b).

Definition is_portrait (ps : PageSize) : bool := fst ps <? snd ps.
Definition is_landscape (ps : PageSize) : bool := snd ps <? fst ps.

(** Two page sizes are of the same paper when one is the other turned. *)
Definition same_paper (p q : PageSize) : Prop :=
  p = q \/ p = (snd q, fst q).

(** Lines 150-156 of [convert]: A4, turned when the header has more than six
    entries; [data[0]] on an empty grid raises [IndexError], which the
    [except] answers with A4. *)
Definition choose_page_size (data : list (list pystr)) : PageSize :=
  match data with
  | [] => A4
  | header :: _ =>
      if 6 <? Z.of_nat (length header) then landscape A4 else A4
  end.

(* ================================================================= *)
(** ** Paths (posixpath) *)

Definition slash : codepoint := 47.

(** [os.path.join(a, b)] *)
Definition path_join (a b : pystr) : pystr :=
  match b with
  | 47 :: _ => b
  | _ =>
      match rev a with
      | [] => a ++ b
      | 47 :: _ => a ++ b
      | _ => a ++ slash :: b
      end
  end.

(** [os.path.basename(p)]: what follows the last slash. *)
Definition basename (p : pystr) : pystr :=
  match after_last slash p with
  | Some t => t
  | None => p
  end.

(* ================================================================= *)
(** ** Documents (reportlab.platypus) *)

Inductive Alignment : Type := TA_CENTER | TA_RIGHT.

Record ParagraphStyle : Type := mkParagraphStyle {
  style_name : pystr;
  fontName : pystr;
  fontSize : Z;
  alignment : Alignment;
  spaceAfter : Z
}.

Record Paragraph : Type := mkParagraph {
  para_text : pystr;
  para_style : ParagraphStyle
}.

Inductive Color : Type := HexColor (hex : pystr) | white.

(** One command of a [TableStyle]: the cell range it covers and its
    arguments.  Line widths are in hundredths of a point. *)
Inductive StyleCmd : Type :=
| BACKGROUND (from_ to_ : Z * Z) (c : Color)
| TEXTCOLOR (from_ to_ : Z * Z) (c : Color)
| ALIGN (from_ to_ : Z * Z) (a : pystr)
| VALIGN (from_ to_ : Z * Z) (a : pystr)
| INNERGRID (from_ to_ : Z * Z) (width : Z) (c : Color)
| BOX (from_ to_ : Z * Z) (width : Z) (c : Color)
| FONTNAME (from_ to_ : Z * Z) (f : pystr)
| FONTSIZE (from_ to_ : Z * Z) (n : Z)
| LEFTPADDING (from_ to_ : Z * Z) (n : Z)
| RIGHTPADDING (from_ to_ : Z * Z) (n : Z)
| TOPPADDING (from_ to_ : Z * Z) (n : Z)
| BOTTOMPADDING (from_ to_ : Z * Z) (n : Z).

Inductive Flowable : Type :=
| FParagraph (p : Paragraph)
| FSpacer (width height : Z)
| FTable (cells : list (list Paragraph)) (repeatRows : Z)
         (style : list StyleCmd).

(** A [SimpleDocTemplate] once built: its geometry and the flowables it was
    built from. *)
Record Document : Type := mkDocument {
  pagesize : PageSize;
  rightMargin : Z;
  leftMargin : Z;
  topMargin : Z;
  bottomMargin : Z;
  story : list Flowable
}.

(** The table inside a document, as the rows of cell texts. *)
Definition table_texts (d : Document) : list (list (list pystr)) :=
  flat_map (fun f => match f with
                     | FTable cells _ _ => [map (map para_text) cells]
                     | _ => []
                     end) (story d).

(** The title paragraphs of a document (the paragraphs outside the table). *)
Definition paragraphs (d : Document) : list pystr :=
  flat_map (fun f => match f with
                     | FParagraph p => [para_text p]
                     | _ => []
                     end) (story d).

(** The font names a document asks for: those of its paragraphs, of the
    paragraphs in its tables and of the [FONTNAME] commands of the table
    styles. *)
Definition flowable_fonts (f : Flowable) : list pystr :=
  match f with
  | FParagraph p => [fontName (para_style p)]
  | FSpacer _ _ => []
  | FTable cells _ style =>
      map (fun p => fontName (para_style p)) (concat cells)
      ++ flat_map (fun c => match c with
                            | FONTNAME _ _ f => [f]
                            | _ => []
                            end) style
  end.

Definition document_fonts (d : Document) : list pystr :=
  flat_map flowable_fonts (story d).

(* ================================================================= *)
(** ** The work directory *)

(** The files written under the work directory, newest first: a path is
    looked up from the head, so a later write to the same path hides an
    earlier one. *)
Definition Files : Type := list (pystr * Document).

Definition fs_write (p : pystr) (d : Document) (fs : Files) : Files :=
  (p, d) :: fs.

Fixpoint fs_read (fs : Files) (p : pystr) : option Document :=
  match fs with
  | [] => None
  | (q, d) :: r => if pystr_eqb q p then Some d else fs_read r p
  end.

(* ================================================================= *)
(** ** Requests and responses *)

(** One sheet of the uploaded workbook: its name and what the two calls of
    [pd.read_excel] in [convert] give for it, the first with the engine chosen
    from the file name, the second with the default engine; [None] is a call
    that raises. *)
Record Sheet : Type := mkSheet {
  sheet_name : pystr;
  read_with_engine : option DataFrame;
  read_default : option DataFrame
}.

(** What [pd.ExcelFile(input_path)] gives for the uploaded bytes: an exception
    with its message, or the sheets in workbook order. *)
Inductive Workbook : Type :=
| Unreadable (message : pystr)
| Readable (sheets : list Sheet).

Record Upload : Type := mkUpload {
  filename : pystr;
  workbook : Workbook
}.

(** [request.files]: the part named [excel], when the form has one. *)
Record Request : Type := mkRequest {
  files_excel : option Upload
}.

(** The exceptions that can leave [convert]: the second [pd.read_excel] of a
    sheet raising; reportlab's [Paragraph] refusing a text as markup (a
    [ValueError]); [doc.build] failing to lay out or save a document (a
    [LayoutError] among others); a path missing when the archive is
    written. *)
Inductive Exn : Type :=
| ReadError (sheet : pystr)
| MarkupError (text : pystr)
| BuildError (path : pystr)
| FileNotFound (path : pystr).

(** [redirect(url_for('index'))]; [send_file] of the in-memory zip archive
    (its entries in the order written, each with its [arcname]) under a
    download name; or an exception that leaves [convert]. *)
Inductive Response : Type :=
| Redirect (endpoint : pystr)
| SendFile (download_name : pystr) (entries : list (pystr * Document))
| Unhandled (e : Exn).

(** What a call of [convert] does: the response, the messages flashed (text,
    category) and the PDF documents it built in the work directory, before
    the [finally] clause removes the directory.  The upload saved at line 115
    is not listed. *)
Record Outcome : Type := mkOutcome {
  response : Response;
  flashed : list (pystr * pystr);
  written : Files
}.

(** The state of the loop over the sheets. *)
Record LoopState : Type := mkLoopState {
  files : Files;
  pdf_paths : list pystr
}.

(* ================================================================= *)
(** ** Sample data

    Stand-ins for the library functions the application calls, and a few
    sheets and requests, on which the embedding is run below.  The stand-ins
    are not the libraries.  [sample_lower] is [str.lower] on ASCII text;
    [sample_secure_filename] and [sample_splitext_root] give what
    [secure_filename] and [os.path.splitext] give on the file name used
    below; [sample_reshape] and [sample_get_display] are arbitrary, and no
    statement below rests on what they return. *)

Definition sample_reshape (s : pystr) : pystr := s.

Definition sample_get_display (s : pystr) : pystr := rev s.

Definition sample_secure_filename (s : pystr) : pystr := s.

Definition sample_lower (s : pystr) : pystr :=
  map (fun c => if (65 <=? c) && (c <=? 90) then c + 32 else c) s.

Definition sample_splitext_root (s : pystr) : pystr :=
  match after_last 46 s with
  | Some ext => firstn (length s - length ext - 1) s
  | None => s
  end.

Definition sample_workdir : pystr := lit "/tmp/xls2pdf_a1".

(** A paragraph parser that refuses a less-than sign unless it opens a line
    break tag, and a builder that lays out tables of up to fifty columns. *)
Fixpoint sample_markup_ok (s : pystr) : bool :=
  match s with
  | [] => true
  | 60 :: r =>
      match r with
      | 98 :: 114 :: 47 :: 62 :: r' => sample_markup_ok r
      | _ => false
      end
  | _ :: r => sample_markup_ok r
  end.

Definition sample_paragraph_ok (p : Paragraph) : bool :=
  sample_markup_ok (para_text p).

Definition sample_build_ok (path : pystr) (d : Document) : bool :=
  forallb (fun tbl => forallb (fun row => (length row <=? 50)%nat) tbl)
          (table_texts d).

(** The first sheet of the specification's end-to-end scenario: a header of
    two Arabic labels and one data row, an Arabic name and the number 30. *)
Definition sample_people : DataFrame :=
  {| columns := [CStr [0x0627; 0x0644; 0x0627; 0x0633; 0x0645];
                 CStr [0x0627; 0x0644; 0x0639; 0x0645; 0x0631]];
     rows := [[CStr [0x0645; 0x062D; 0x0645; 0x062F]; CInt 30]] |}.

(** A sheet where nothing was typed: pandas reads it as a frame with no
    column and no row. *)
Definition sample_blank : DataFrame := {| columns := []; rows := [] |}.

(** A sheet with cells that were formatted but hold nothing. *)
Definition sample_all_missing : DataFrame :=
  {| columns := [CNaN; CNaN]; rows := [[CNaN; CNaN]; [CNaN; CNone]] |}.

(** A sheet that has a header row and nothing below it. *)
Definition sample_header_only : DataFrame :=
  {| columns := [CStr (lit "a")]; rows := [] |}.

Definition sheet_of (name : pystr) (df : DataFrame) : Sheet :=
  {| sheet_name := name; read_with_engine := Some df; read_default := Some df |}.

Definition request_of (name : pystr) (wb : Workbook) : Request :=
  {| files_excel := Some {| filename := name; workbook := wb |} |}.

(** The two-sheet workbook of the end-to-end scenario, and its upload. *)
Definition sample_workbook : list Sheet :=
  [sheet_of (lit "People") sample_people; sheet_of (lit "Empty") sample_blank].

Definition sample_request : Request :=
  request_of (lit "book.xlsx") (Readable sample_workbook).

(** An upload that is not a workbook. *)
Definition sample_corrupt_request : Request :=
  request_of (lit "book.xlsx") (Unreadable (lit "File is not a zip file")).

(** A workbook of two sheets with nothing in them. *)
Definition sample_empty_workbook : list Sheet :=
  [sheet_of (lit "Sheet1") sample_blank;
   sheet_of (lit "Sheet2") sample_all_missing].

Definition sample_empty_request : Request :=
  request_of (lit "book.xlsx") (Readable sample_empty_workbook).

(** A workbook whose one sheet has a header row only. *)
Definition sample_header_only_workbook : list Sheet :=
  [sheet_of (lit "Data") sample_header_only].

Definition sample_header_only_request : Request :=
  request_of (lit "book.xlsx") (Readable sample_header_only_workbook).

(** A sheet that neither call of [pd.read_excel] can load, in a workbook
    between two sheets that load. *)
Definition sample_unreadable_sheet : Sheet :=
  {| sheet_name := lit "Broken"; read_with_engine := None;
     read_default := None |}.

Definition sample_broken_workbook : list Sheet :=
  [sheet_of (lit "People") sample_people; sample_unreadable_sheet;
   sheet_of (lit "Later") sample_people].

Definition sample_broken_request : Request :=
  request_of (lit "book.xlsx") (Readable sample_broken_workbook).

(** Two sheets whose names differ by a slash only. *)
Definition sample_totals : DataFrame :=
  {| columns := [CStr (lit "item"); CStr (lit "total")];
     rows := [[CStr (lit "pens"); CInt 12]; [CNaN; CNaN]] |}.

Definition sample_colliding_workbook : list Sheet :=
  [sheet_of (lit "Q1/2024") sample_people;
   sheet_of (lit "Q12024") sample_totals].

Definition sample_colliding_request : Request :=
  request_of (lit "book.xlsx") (Readable sample_colliding_workbook).

(** A sheet with a cell that is not well-formed paragraph markup. *)
Definition sample_markup : DataFrame :=
  {| columns := [CStr (lit "rule")]; rows := [[CStr (lit "a<b")]] |}.

Definition sample_markup_workbook : list Sheet :=
  [sheet_of (lit "Rules") sample_markup].

Definition sample_markup_request : Request :=
  request_of (lit "book.xlsx") (Readable sample_markup_workbook).

(** The same upload with another workbook behind it. *)
Definition replace_workbook (req : Request) (wb : Workbook) : Request :=
  match files_excel req with
  | None => req
  | Some file =>
      {| files_excel := Some {| filename := filename file; workbook := wb |} |}
  end.

(* ================================================================= *)
(** ** The application *)

Section App.

#[local] Set Default Proof Using "Type".

(** Library functions the application calls: [arabic_reshaper.reshape],
    [bidi.algorithm.get_display], [werkzeug.utils.secure_filename],
    [str.lower] and the first component of [os.path.splitext]. *)
Variable arabic_reshaper_reshape : pystr -> pystr.
Variable get_display : pystr -> pystr.
Variable secure_filename : pystr -> pystr.
Variable str_lower : pystr -> pystr.
Variable splitext_root : pystr -> pystr.

(** What reportlab does with the application's input: whether
    [Paragraph(text, style)] accepts the text as markup (it raises
    [ValueError] otherwise), and whether [doc.build] lays out and saves the
    document at a path (it raises otherwise). *)
Variable paragraph_ok : Paragraph -> bool.
Variable build_ok : pystr -> Document -> bool.

(** [os.path.exists(ARABIC_FONT)] at start-up, and the directory
    [tempfile.mkdtemp] creates for the request. *)
Variable font_exists : bool.
Variable workdir : pystr.

Definition ALLOWED_EXTENSIONS : list pystr := [lit "xls"; lit "xlsx"].

Definition ARABIC_FONT_NAME : pystr :=
  if font_exists then lit "Amiri" else lit "Helvetica".

Definition allowed_file (name : pystr) : bool :=
  char_in 46 name
  && match after_last 46 name with
     | Some ext => existsb (pystr_eqb (str_lower ext)) ALLOWED_EXTENSIONS
     | None => false
     end.

Definition reshape_rtl (text : Cell) : pystr :=
  match text with
  | CNone => []
  | _ =>
      let s := py_str text in
      if has_arabic s then
        let reshaped := arabic_reshaper_reshape s in
        let bidi_text := get_display reshaped in
        bidi_text
      else s
  end.

(** The body of the inner loop of [df_to_table_data]: what one data cell
    becomes. *)
Definition table_cell (cell : Cell) : pystr :=
  if isna cell then [] else reshape_rtl cell.

Definition df_to_table_data (df : DataFrame) : list (list pystr) :=
  let headers := map reshape_rtl (columns df) in
  let rows := map (map table_cell) (rows df) in
  headers :: rows.

Definition title_style : ParagraphStyle :=
  {| style_name := lit "Title"; fontName := ARABIC_FONT_NAME;
     fontSize := 14; alignment := TA_CENTER; spaceAfter := 8 |}.

Definition cell_style : ParagraphStyle :=
  {| style_name := lit "Cell"; fontName := ARABIC_FONT_NAME;
     fontSize := 10; alignment := TA_RIGHT; spaceAfter := 0 |}.

Definition table_style : list StyleCmd :=
  [ BACKGROUND (0, 0) (-1, 0) (HexColor (lit "#2c3e50"));
    TEXTCOLOR (0, 0) (-1, 0) white;
    ALIGN (0, 0) (-1, -1) (lit "RIGHT");
    VALIGN (0, 0) (-1, -1) (lit "MIDDLE");
    INNERGRID (0, 0) (-1, -1) 25 (HexColor (lit "#444444"));
    BOX (0, 0) (-1, -1) 50 (HexColor (lit "#444444"));
    FONTNAME (0, 0) (-1, -1) ARABIC_FONT_NAME;
    FONTSIZE (0, 0) (-1, -1) 9;
    LEFTPADDING (0, 0) (-1, -1) 6;
    RIGHTPADDING (0, 0) (-1, -1) 6;
    TOPPADDING (0, 0) (-1, -1) 4;
    BOTTOMPADDING (0, 0) (-1, -1) 4 ].

(** [Paragraph(cell.replace("\n", "<br/>"), cell_style)] *)
Definition cell_paragraph (cell : pystr) : Paragraph :=
  {| para_text := replace_char 10 (lit "<br/>") cell;
     para_style := cell_style |}.

(** [f"{safe_name}.pdf"] joined to the work directory. *)
Definition pdf_filename (name : pystr) : pystr :=
  sanitize_filename name ++ lit ".pdf".

Definition pdf_path (name : pystr) : pystr :=
  path_join workdir (pdf_filename name).

(** Lines 141-210 of [convert]: the document built for a sheet that is not
    skipped, when no call on the way raises (see [render_document]). *)
Definition build_document (name : pystr) (df : DataFrame) : Document :=
  let data := df_to_table_data df in
  let page_size := choose_page_size data in
  let table_data := map (map cell_paragraph) data in
  let tbl := FTable table_data 1 table_style in
  let display_title := reshape_rtl (CStr name) in
  {| pagesize := page_size;
     rightMargin := 20; leftMargin := 20; topMargin := 30;
     bottomMargin := 20;
     story := [FParagraph (mkParagraph display_title title_style);
               FSpacer 1 6; tbl] |}.

(** Lines 129-134: the read with the chosen engine, and the read with the
    default engine when the first raises. *)
Definition read_sheet (s : Sheet) : option DataFrame :=
  match read_with_engine s with
  | Some df => Some df
  | None => read_default s
  end.

(** Line 137: [df.dropna(how='all').empty]. *)
Definition skipped (df : DataFrame) : bool := empty (dropna_all df).

(** Lines 176-210 with their failures, in the order the calls are made: a
    paragraph for every cell of the grid, row by row (line 181), the title
    paragraph (line 205), then [doc.build] (line 210).  The first call that
    raises ends the rendering; when none does the document is
    [build_document]. *)
Definition render_document (name : pystr) (df : DataFrame) : Exn + Document :=
  let data := df_to_table_data df in
  let doc := build_document name df in
  match find (fun p => negb (paragraph_ok p))
             (map cell_paragraph (concat data)) with
  | Some p => inl (MarkupError (para_text p))
  | None =>
      let title := mkParagraph (reshape_rtl (CStr name)) title_style in
      if paragraph_ok title then
        if build_ok (pdf_path name) doc then inr doc
        else inl (BuildError (pdf_path name))
      else inl (MarkupError (para_text title))
  end.

(** Whether the rendering of a sheet goes through. *)
Definition renders (name : pystr) (df : DataFrame) : bool :=
  match render_document name df with
  | inr _ => true
  | inl _ => false
  end.

(** One turn of the loop over the sheet names; [inl] is the exception of a
    sheet that neither read could load, or of a rendering that raised. *)
Definition sheet_step (st : LoopState) (s : Sheet) : Exn + LoopState :=
  match read_sheet s with
  | None => inl (ReadError (sheet_name s))
  | Some df =>
      if skipped df then inr st
      else
        let p := pdf_path (sheet_name s) in
        match render_document (sheet_name s) df with
        | inl e => inl e
        | inr doc =>
            inr {| files := fs_write p doc (files st);
                   pdf_paths := pdf_paths st ++ [p] |}
        end
  end.

(** A sheet the loop gets past: it loads, and it is skipped or its rendering
    goes through. *)
Definition sheet_ok (s : Sheet) : bool :=
  match read_sheet s with
  | Some df => skipped df || renders (sheet_name s) df
  | None => false
  end.

(** The loop: the state it reached, and the exception that stopped it if
    one did. *)
Fixpoint convert_loop (st : LoopState) (sheets : list Sheet)
  : LoopState * option Exn :=
  match sheets with
  | [] => (st, None)
  | s :: rest =>
      match sheet_step st s with
      | inl e => (st, Some e)
      | inr st' => convert_loop st' rest
      end
  end.

(** Lines 220-222: every path is read back and written to the archive
    under its base name. *)
Fixpoint zip_write (fs : Files) (paths : list pystr)
  : Exn + list (pystr * Document) :=
  match paths with
  | [] => inr []
  | p :: rest =>
      match fs_read fs p with
      | None => inl (FileNotFound p)
      | Some d =>
          match zip_write fs rest with
          | inl e => inl e
          | inr entries => inr ((basename p, d) :: entries)
          end
      end
  end.

Definition flash_redirect (message category : pystr) (fs : Files)
  : Outcome :=
  {| response := Redirect (lit "index");
     flashed := [(message, category)];
     written := fs |}.

Definition convert (req : Request) : Outcome :=
  match files_excel req with
  | None => flash_redirect (lit "No file part") (lit "danger") []
  | Some file =>
      if pystr_eqb (filename file) [] then
        flash_redirect (lit "No selected file") (lit "danger") []
      else if negb (allowed_file (filename file)) then
        flash_redirect (lit "Unsupported file type. Upload .xls or .xlsx")
                       (lit "danger") []
      else
        let name := secure_filename (filename file) in
        match workbook file with
        | Unreadable e =>
            flash_redirect (lit "Failed to read Excel file: " ++ e)
                           (lit "danger") []
        | Readable sheets =>
            let '(st, raised) :=
              convert_loop {| files := []; pdf_paths := [] |} sheets in
            match raised with
            | Some e =>
                {| response := Unhandled e; flashed := [];
                   written := files st |}
            | None =>
                match pdf_paths st with
                | [] =>
                    flash_redirect
                      (lit "No non-empty sheets found in the uploaded Excel file.")
                      (lit "warning") (files st)
                | _ =>
                    match zip_write (files st) (pdf_paths st) with
                    | inl e =>
                        {| response := Unhandled e; flashed := [];
                           written := files st |}
                    | inr entries =>
                        {| response :=
                             SendFile (splitext_root name ++ lit "_pdfs.zip")
                                      entries;
                           flashed := [];
                           written := files st |}
                    end
                end
            end
        end
  end.

(** The sheets of a workbook that are read and not skipped, in workbook
    order, each with the data frame read for it: the sheets [convert]
    renders. *)
Definition rendered_sheets (sheets : list Sheet)
  : list (pystr * DataFrame) :=
  flat_map (fun s => match read_sheet s with
                     | Some df =>
                         if skipped df then [] else [(sheet_name s, df)]
                     | None => []
                     end) sheets.


(** Whether the loop renders a sheet: it could be read, and the frame read
    has a column and a row that is not all missing. *)
Definition sheet_rendered (s : Sheet) : bool :=
  match read_sheet s with
  | Some df => negb (skipped df)
  | None => false
  end.

(** The sheets the specification counts as non-empty: some cell in some row,
    the header row included, is not empty/null. *)
Definition spec_nonempty_sheets (sheets : list Sheet) : list Sheet :=
  filter (fun s => match read_sheet s with
                   | Some df => spec_nonempty df
                   | None => false
                   end) sheets.

(** The file a rendered sheet leaves in the work directory, and its entry in
    the archive. *)
Definition written_file (d : pystr * DataFrame) : pystr * Document :=
  (pdf_path (fst d), build_document (fst d) (snd d)).

Definition archive_entry (d : pystr * DataFrame) : pystr * Document :=
  (pdf_filename (fst d), build_document (fst d) (snd d)).

Definition no_sheets_message : pystr :=
  lit "No non-empty sheets found in the uploaded Excel file.".

(* ================================================================= *)
(** ** Facts about strings *)

Lemma lstrip_split (s : pystr) :
  exists l, s = l ++ lstrip s /\ forallb py_isspace l = true.
Proof.
  induction s as [|c r IH].
  - exists []. split; reflexivity.
  - simpl. destruct (py_isspace c) eqn:Hc.
    + destruct IH as [l [Hs Hl]]. exists (c :: l). split.
      * simpl. f_equal. exact Hs.
      * simpl. rewrite Hc. exact Hl.
    + exists []. split; reflexivity.
Qed.

Lemma lstrip_head (s : pystr) (c : codepoint) :
  hd_error (lstrip s) = Some c -> py_isspace c = false.
Proof.
  induction s as [|x r IH]; simpl.
  - discriminate.
  - destruct (py_isspace x) eqn:Hx.
    + exact IH.
    + simpl. intros H. injection H as <-. exact Hx.
Qed.

Lemma forallb_rev {A} (f : A -> bool) (l : list A) :
  forallb f (rev l) = forallb f l.
Proof.
  induction l as [|x l IH]; simpl.
  - reflexivity.
  - rewrite forallb_app, IH. simpl. rewrite andb_true_r. apply andb_comm.
Qed.

Lemma rstrip_split (s : pystr) :
  exists r, s = rstrip s ++ r /\ forallb py_isspace r = true.
Proof.
  unfold rstrip. destruct (lstrip_split (rev s)) as [l [Hs Hl]].
  exists (rev l). split.
  - rewrite <- rev_app_distr, <- Hs. symmetry. apply rev_involutive.
  - rewrite forallb_rev. exact Hl.
Qed.

Lemma rstrip_last (s : pystr) (c : codepoint) :
  hd_error (rev (rstrip s)) = Some c -> py_isspace c = false.
Proof.
  unfold rstrip. rewrite rev_involutive. apply lstrip_head.
Qed.

(** [strip] cuts a run of whitespace from each end and leaves a text that
    neither starts nor ends with whitespace. *)
Lemma strip_split (s : pystr) :
  exists l r,
    s = l ++ strip s ++ r
    /\ forallb py_isspace l = true
    /\ forallb py_isspace r = true
    /\ (forall c, hd_error (strip s) = Some c -> py_isspace c = false)
    /\ (forall c, hd_error (rev (strip s)) = Some c -> py_isspace c = false).
Proof.
  unfold strip.
  destruct (lstrip_split s) as [l [Hs Hl]].
  destruct (rstrip_split (lstrip s)) as [r [Ht Hr]].
  exists l, r. repeat split; try assumption.
  - rewrite <- Ht. exact Hs.
  - intros c Hc. apply (lstrip_head s).
    rewrite Ht. destruct (rstrip (lstrip s)); simpl in *; [discriminate | exact Hc].
  - apply rstrip_last.
Qed.

Lemma strip_incl (s : pystr) (c : codepoint) : In c (strip s) -> In c s.
Proof.
  destruct (strip_split s) as [l [r [Hs _]]]. intros H.
  rewrite Hs. apply in_or_app. right. apply in_or_app. left. exact H.
Qed.

(** A text with no whitespace at either end is left as it is. *)
Lemma lstrip_id (s : pystr) :
  (forall c, hd_error s = Some c -> py_isspace c = false) -> lstrip s = s.
Proof.
  destruct s as [|x r]; simpl; intros H.
  - reflexivity.
  - rewrite (H x eq_refl). reflexivity.
Qed.

Lemma strip_id (s : pystr) :
  (forall c, hd_error s = Some c -> py_isspace c = false) ->
  (forall c, hd_error (rev s) = Some c -> py_isspace c = false) ->
  strip s = s.
Proof.
  intros Hh Hl. unfold strip, rstrip.
  rewrite (lstrip_id s Hh), (lstrip_id (rev s) Hl). apply rev_involutive.
Qed.

Lemma char_in_false (c : codepoint) (s : pystr) :
  char_in c s = false <-> ~ In c s.
Proof.
  unfold char_in. split.
  - intros H Hin. assert (existsb (Z.eqb c) s = true) as E.
    { apply existsb_exists. exists c. split; [exact Hin | apply Z.eqb_refl]. }
    rewrite E in H. discriminate H.
  - intros H. destruct (existsb (Z.eqb c) s) eqn:E; [|reflexivity].
    apply existsb_exists in E. destruct E as [x [Hin Hx]].
    apply Z.eqb_eq in Hx. subst x. contradiction.
Qed.

Lemma after_last_none (sep : codepoint) (s : pystr) :
  ~ In sep s -> after_last sep s = None.
Proof.
  induction s as [|c r IH]; simpl; intros H.
  - reflexivity.
  - rewrite IH by (intros Hr; apply H; right; exact Hr).
    destruct (Z.eqb_spec c sep); [exfalso; apply H; left; assumption | reflexivity].
Qed.

Lemma after_last_app (sep : codepoint) (a b : pystr) :
  ~ In sep b -> after_last sep (a ++ sep :: b) = Some b.
Proof.
  intros Hb. induction a as [|c r IH]; simpl.
  - rewrite (after_last_none sep b Hb), Z.eqb_refl. reflexivity.
  - rewrite IH. reflexivity.
Qed.

(** [os.path.basename(os.path.join(a, b)) == b] for a name with no slash. *)
Lemma basename_path_join (a b : pystr) :
  ~ In slash b -> basename (path_join a b) = b.
Proof.
  intros Hb. unfold path_join.
  assert (forall x, basename (x ++ slash :: b) = b) as Hsl.
  { intros x. unfold basename. rewrite after_last_app by exact Hb. reflexivity. }
  assert (basename b = b) as Hnone.
  { unfold basename. rewrite after_last_none by exact Hb. reflexivity. }
  destruct b as [|c b'].
  - destruct (rev a) as [|z t] eqn:Ha.
    + apply (f_equal (@rev _)) in Ha. rewrite rev_involutive in Ha. subst a.
      reflexivity.
    + apply (f_equal (@rev _)) in Ha. rewrite rev_involutive in Ha. subst a.
      simpl. destruct (Z.eq_dec z 47) as [->|Hz].
      * rewrite app_nil_r. apply (Hsl (rev t)).
      * assert (basename ((rev t ++ [z]) ++ [slash]) = []) as E by apply Hsl.
        destruct z as [|p|p]; try exact E.
        do 6 (destruct p as [p|p|]; try exact E).
        exfalso. apply Hz. reflexivity.
  - assert (c <> 47) as Hc.
    { intros ->. apply Hb. left. reflexivity. }
    assert (forall r : pystr,
              match c with 47 => c :: b' | _ => r end = r) as Hm.
    { intros r. destruct c as [|p|p]; try reflexivity.
      do 6 (destruct p as [p|p|]; try reflexivity).
      exfalso. apply Hc. reflexivity. }
    rewrite Hm.
    destruct (rev a) as [|z t] eqn:Ha.
    + apply (f_equal (@rev _)) in Ha. rewrite rev_involutive in Ha. subst a.
      exact Hnone.
    + apply (f_equal (@rev _)) in Ha. rewrite rev_involutive in Ha. subst a.
      simpl. destruct (Z.eq_dec z 47) as [->|Hz].
      * rewrite <- app_assoc. apply (Hsl (rev t)).
      * assert (basename ((rev t ++ [z]) ++ slash :: c :: b') = c :: b') as E
            by apply Hsl.
        destruct z as [|p|p]; try exact E.
        do 6 (destruct p as [p|p|]; try exact E).
        exfalso. apply Hz. reflexivity.
Qed.

(* ================================================================= *)
(** ** [sanitize_filename] *)

Lemma sanitize_filename_no_invalid (name : pystr) (c : codepoint) :
  In c (sanitize_filename name) -> char_in c invalid = false.
Proof.
  unfold sanitize_filename.
  destruct (strip (filter (fun c => negb (char_in c invalid)) name))
    as [|x r] eqn:E.
  - simpl. intros [H|[H|[H|[H|[H|[]]]]]]; subst c; reflexivity.
  - rewrite <- E. intros H. apply strip_incl in H.
    apply filter_In in H. destruct H as [_ H].
    apply negb_true_iff in H. exact H.
Qed.

(** A name with no illegal character and no whitespace at either end is its
    own sanitized form: whatever else it holds (Arabic letters, spaces
    between words) is kept as it is. *)
Lemma sanitize_filename_fixed (name : pystr) :
  name <> [] ->
  (forall c, In c name -> char_in c invalid = false) ->
  (forall c, hd_error name = Some c -> py_isspace c = false) ->
  (forall c, hd_error (rev name) = Some c -> py_isspace c = false) ->
  sanitize_filename name = name.
Proof.
  intros Hne Hinv Hh Hl. unfold sanitize_filename.
  assert (filter (fun c => negb (char_in c invalid)) name = name) as ->.
  { apply forallb_filter_id. apply forallb_forall. intros c Hc.
    rewrite (Hinv c Hc). reflexivity. }
  rewrite (strip_id name Hh Hl). destruct name; [contradiction | reflexivity].
Qed.

(** The sheet name of the specification's scenario: slashes and a colon among
    Arabic words and spaces. *)
Example sanitize_filename_arabic :
  sanitize_filename
    [0x062A; 0x0642; 0x0631; 0x064A; 0x0631; 47; 50; 48; 50; 52; 58; 32;
     0x0645; 0x0628; 0x064A; 0x0639; 0x0627; 0x062A]
  = [0x062A; 0x0642; 0x0631; 0x064A; 0x0631; 50; 48; 50; 52; 32;
     0x0645; 0x0628; 0x064A; 0x0639; 0x0627; 0x062A].
Proof. reflexivity. Qed.

Example sanitize_filename_default :
  sanitize_filename [47; 58; 42] = lit "sheet".
Proof. reflexivity. Qed.

(** C4 (as amended): [sanitize_filename] removes exactly the nine illegal
    characters, then cuts the whitespace at both ends of what is left; every
    other character (Arabic letters, spaces inside the name) is kept in
    place, and the default name ["sheet"] is used when nothing is left after
    the cut. *)
Theorem sanitize_filename_strips (name : pystr) :
  let kept := filter (fun c => negb (char_in c invalid)) name in
  (forall c, In c kept <-> In c name /\ ~ In c invalid)
  /\ exists l core r,
       kept = l ++ core ++ r
       /\ forallb py_isspace l = true
       /\ forallb py_isspace r = true
       /\ (forall c, hd_error core = Some c -> py_isspace c = false)
       /\ (forall c, hd_error (rev core) = Some c -> py_isspace c = false)
       /\ sanitize_filename name
          = match core with [] => lit "sheet" | _ => core end.
Proof.
  intros kept. split.
  - intros c. unfold kept. rewrite filter_In, negb_true_iff, char_in_false.
    reflexivity.
  - destruct (strip_split kept) as [l [r [Hs [Hl [Hr [Hh Ht]]]]]].
    exists l, (strip kept), r. repeat split; try assumption.
Qed.

(** C4 (counterexample): on the name made of a space and the letter [a] the
    code returns ["a"], while removing only the illegal characters keeps the
    space. *)
Lemma sanitize_filename_leading_space :
  sanitize_filename [32; 97] = [97]
  /\ sanitize_filename_spec [32; 97] = [32; 97]
  /\ sanitize_filename [32; 97] <> sanitize_filename_spec [32; 97].
Proof.
  repeat split. discriminate.
Qed.

(* ================================================================= *)
(** ** [reshape_rtl] *)

Lemma is_arabic_ranges (ch : codepoint) :
  is_arabic ch = true <->
  (0x0600 <= ch <= 0x06FF \/ 0x0750 <= ch <= 0x077F \/ 0x08A0 <= ch <= 0x08FF).
Proof.
  unfold is_arabic.
  rewrite !orb_true_iff, !andb_true_iff, !Z.leb_le. apply or_assoc.
Qed.

Lemma has_arabic_false (s : pystr) :
  (forall ch, In ch s ->
     ~ (0x0600 <= ch <= 0x06FF \/ 0x0750 <= ch <= 0x077F
        \/ 0x08A0 <= ch <= 0x08FF)) ->
  has_arabic s = false.
Proof.
  intros H. unfold has_arabic.
  destruct (existsb is_arabic s) eqn:E; [|reflexivity].
  apply existsb_exists in E. destruct E as [ch [Hin Hch]].
  apply is_arabic_ranges in Hch. exfalso. exact (H ch Hin Hch).
Qed.

(** Any value but [None] whose text has no Arabic character comes back as
    its text. *)
Lemma reshape_rtl_passthrough (x : Cell) :
  x <> CNone -> has_arabic (py_str x) = false -> reshape_rtl x = py_str x.
Proof.
  intros Hx Ha. unfold reshape_rtl.
  destruct x; try contradiction; cbv zeta; rewrite Ha; reflexivity.
Qed.

(** A text with an Arabic character goes through the two library calls. *)
Lemma reshape_rtl_arabic (s : pystr) :
  has_arabic s = true ->
  reshape_rtl (CStr s) = get_display (arabic_reshaper_reshape s).
Proof.
  intros Ha. unfold reshape_rtl. simpl. rewrite Ha. reflexivity.
Qed.

(** C2: a string with no codepoint in U+0600..U+06FF, U+0750..U+077F or
    U+08A0..U+08FF is returned by [reshape_rtl] exactly as [str] gives it,
    that is unchanged: neither library function is applied. *)
Theorem reshape_rtl_non_arabic (s : pystr) :
  (forall ch, In ch s ->
     ~ (0x0600 <= ch <= 0x06FF \/ 0x0750 <= ch <= 0x077F
        \/ 0x08A0 <= ch <= 0x08FF)) ->
  reshape_rtl (CStr s) = py_str (CStr s) /\ py_str (CStr s) = s.
Proof.
  intros H. split; [|reflexivity].
  apply reshape_rtl_passthrough; [discriminate|].
  apply has_arabic_false. exact H.
Qed.

(** Applying [reshape_rtl] to its own result changes nothing exactly when
    the result of the two library calls either holds no character of the
    Arabic ranges, or is left alone by a second pass through the calls:
    the code itself has no other guard. *)
Lemma reshape_rtl_twice (s : pystr) :
  reshape_rtl (CStr (reshape_rtl (CStr s))) = reshape_rtl (CStr s) <->
  (has_arabic s = false
   \/ let t := get_display (arabic_reshaper_reshape s) in
      has_arabic t = false \/ get_display (arabic_reshaper_reshape t) = t).
Proof.
  unfold reshape_rtl. simpl.
  destruct (has_arabic s) eqn:Hs.
  - destruct (has_arabic (get_display (arabic_reshaper_reshape s))) eqn:Ht.
    + split.
      * intros H. right. right. exact H.
      * intros [H|[H|H]]; [discriminate | discriminate | exact H].
    + split; [intros _; right; left; reflexivity | reflexivity].
  - rewrite Hs. split; [intros _; left; reflexivity | reflexivity].
Qed.

(* ================================================================= *)
(** ** [df_to_table_data] *)

Lemma grid_cell_data (df : DataFrame) (i j : nat) (r : list Cell) (cell : Cell) :
  nth_error (rows df) i = Some r ->
  nth_error r j = Some cell ->
  grid_cell (df_to_table_data df) (S i) j = Some (table_cell cell).
Proof.
  intros Hr Hc. unfold grid_cell, df_to_table_data. simpl.
  rewrite nth_error_map, Hr. simpl. rewrite nth_error_map, Hc. reflexivity.
Qed.

(** C3 (as amended): [reshape_rtl] returns the empty string for [None]; any
    other missing value it returns as its text (["nan"] for NaN), and it is
    [df_to_table_data] that turns every missing data cell (null or NaN) into
    the empty string, before [reshape_rtl] is called. *)
Theorem missing_cell_shaping :
  reshape_rtl CNone = []
  /\ reshape_rtl CNaN = lit "nan"
  /\ (forall cell, isna cell = true -> cell <> CNone ->
        reshape_rtl cell = py_str cell)
  /\ (forall df i j r cell,
        nth_error (rows df) i = Some r -> nth_error r j = Some cell ->
        isna cell = true ->
        grid_cell (df_to_table_data df) (S i) j = Some []).
Proof.
  repeat split.
  - intros cell Hna Hne. apply reshape_rtl_passthrough; [exact Hne|].
    destruct cell; try discriminate; try contradiction; reflexivity.
  - intros df i j r cell Hr Hc Hna.
    rewrite (grid_cell_data df i j r cell Hr Hc).
    unfold table_cell. rewrite Hna. reflexivity.
Qed.

(** C10: the grid [df_to_table_data] makes of a frame has one header row and
    one row per data row, each with one entry per column; a header entry is
    [reshape_rtl] of the column label, a data entry is the empty string for
    a missing (null or NaN) cell and [reshape_rtl] of the cell otherwise. *)
Theorem df_to_table_data_grid (df : DataFrame) (Hwf : well_formed df) :
  let data := df_to_table_data df in
  length data = S (length (rows df))
  /\ Forall (fun r => length r = length (columns df)) data
  /\ (forall j col,
        nth_error (columns df) j = Some col ->
        grid_cell data 0 j = Some (reshape_rtl col))
  /\ (forall i j r cell,
        nth_error (rows df) i = Some r -> nth_error r j = Some cell ->
        grid_cell data (S i) j
        = Some (if isna cell then [] else reshape_rtl cell)).
Proof.
  cbv zeta. repeat split.
  - unfold df_to_table_data. simpl. rewrite length_map. reflexivity.
  - unfold df_to_table_data. constructor.
    + apply length_map.
    + apply Forall_map. unfold well_formed in Hwf.
      eapply Forall_impl; [|exact Hwf]. intros r Hr. simpl.
      rewrite length_map. exact Hr.
  - intros j col Hc. unfold grid_cell, df_to_table_data. simpl.
    rewrite nth_error_map, Hc. reflexivity.
  - intros i j r cell Hr Hc.
    rewrite (grid_cell_data df i j r cell Hr Hc). reflexivity.
Qed.

(* ================================================================= *)
(** ** Page geometry *)

Lemma choose_page_size_header (header : list pystr) (body : list (list pystr)) :
  let ps := choose_page_size (header :: body) in
  is_portrait ps = (length header <=? 6)%nat
  /\ is_landscape ps = (7 <=? length header)%nat
  /\ same_paper ps A4.
Proof.
  cbv zeta. unfold choose_page_size.
  destruct (Z.ltb_spec 6 (Z.of_nat (length header))) as [H|H].
  - change (landscape A4) with (297, 210).
    repeat split.
    + symmetry. apply Nat.leb_gt. lia.
    + symmetry. apply Nat.leb_le. lia.
    + right. reflexivity.
  - repeat split.
    + symmetry. apply Nat.leb_le. lia.
    + symmetry. apply Nat.leb_gt. lia.
    + left. reflexivity.
Qed.

(** C5: the page of a grid is upright (portrait) exactly when its header row
    has six entries or fewer and turned (landscape) exactly when it has seven
    or more, and it is an A4 page either way; so is the page of the document
    [convert] builds for a sheet, whose header has one entry per column. *)
Theorem page_orientation (header : list pystr) (body : list (list pystr))
    (name : pystr) (df : DataFrame) :
  let ps := choose_page_size (header :: body) in
  let d := build_document name df in
  (is_portrait ps = (length header <=? 6)%nat
   /\ is_landscape ps = (7 <=? length header)%nat
   /\ same_paper ps A4)
  /\ (is_portrait (pagesize d) = (length (columns df) <=? 6)%nat
      /\ is_landscape (pagesize d) = (7 <=? length (columns df))%nat
      /\ same_paper (pagesize d) A4).
Proof.
  cbv zeta. split.
  - apply choose_page_size_header.
  - unfold build_document, df_to_table_data. simpl pagesize.
    rewrite <- (length_map reshape_rtl (columns df)).
    apply (choose_page_size_header (map reshape_rtl (columns df))
                                   (map (map table_cell) (rows df))).
Qed.

(** The document of a sheet: its title is the sheet name as given (not the
    sanitized one) passed through [reshape_rtl], and its one table holds the
    grid of the sheet, each newline turned into a line break. *)
Lemma build_document_content (name : pystr) (df : DataFrame) :
  paragraphs (build_document name df) = [reshape_rtl (CStr name)]
  /\ table_texts (build_document name df)
     = [map (map (replace_char 10 (lit "<br/>"))) (df_to_table_data df)].
Proof.
  unfold paragraphs, table_texts, build_document. simpl. split.
  - reflexivity.
  - unfold df_to_table_data. cbn [map]. rewrite !map_map. f_equal. f_equal.
    apply map_ext. intros r. rewrite !map_map. reflexivity.
Qed.

(* ================================================================= *)
(** ** The empty-sheet rule *)

Lemma filter_nil_iff {A} (f : A -> bool) (l : list A) :
  filter f l = [] <-> forall x, In x l -> f x = false.
Proof.
  induction l as [|a l IH]; simpl.
  - split; [intros _ x [] | reflexivity].
  - destruct (f a) eqn:Ha.
    + split; [discriminate|]. intros H.
      rewrite (H a (or_introl eq_refl)) in Ha. discriminate.
    + rewrite IH. split.
      * intros H x [<-|Hx]; [exact Ha | exact (H x Hx)].
      * intros H x Hx. apply H. right. exact Hx.
Qed.

(** A frame is skipped exactly when it has no column or every data row is
    all missing; the header plays no part. *)
Lemma skipped_true_iff (df : DataFrame) :
  skipped df = true <->
  (columns df = [] \/ forall r, In r (rows df) -> forallb isna r = true).
Proof.
  unfold skipped, empty, dropna_all. simpl.
  destruct (columns df) as [|c cs].
  - split; [intros _; left; reflexivity | reflexivity].
  - destruct (filter (fun r => negb (forallb isna r)) (rows df)) as [|x l] eqn:E.
    + split; [|reflexivity]. intros _. right.
      intros r Hr. rewrite filter_nil_iff in E.
      apply negb_false_iff. exact (E r Hr).
    + split; [discriminate|]. intros [H|H]; [discriminate|].
      assert (In x (filter (fun r => negb (forallb isna r)) (rows df))) as Hx
          by (rewrite E; left; reflexivity).
      apply filter_In in Hx. destruct Hx as [Hx Hn].
      rewrite (H x Hx) in Hn. discriminate.
Qed.

Lemma skipped_false_iff (df : DataFrame) :
  skipped df = false <->
  (columns df <> []
   /\ exists r cell, In r (rows df) /\ In cell r /\ isna cell = false).
Proof.
  split.
  - intros H. split.
    + intros Hc. assert (skipped df = true) as E
          by (apply skipped_true_iff; left; exact Hc).
      rewrite E in H. discriminate H.
    + destruct (forallb (forallb isna) (rows df)) eqn:E.
      * assert (skipped df = true) as E'.
        { apply skipped_true_iff. right. rewrite forallb_forall in E. exact E. }
        rewrite E' in H. discriminate H.
      * assert (existsb (fun r => negb (forallb isna r)) (rows df) = true) as Ex.
        { clear H. induction (rows df) as [|r l IH]; simpl in *; [discriminate|].
          destruct (forallb isna r); simpl in *; [apply IH; exact E | reflexivity]. }
        apply existsb_exists in Ex. destruct Ex as [r [Hr Hn]].
        apply negb_true_iff in Hn.
        assert (existsb (fun c => negb (isna c)) r = true) as Ec.
        { clear Hr. induction r as [|c r IH]; simpl in *; [discriminate|].
          destruct (isna c); simpl in *; [apply IH; exact Hn | reflexivity]. }
        apply existsb_exists in Ec. destruct Ec as [c [Hc Hna]].
        exists r, c. repeat split; try assumption.
        apply negb_true_iff. exact Hna.
  - intros [Hc [r [cell [Hr [Hcell Hna]]]]].
    destruct (skipped df) eqn:E; [|reflexivity].
    apply skipped_true_iff in E. destruct E as [E|E]; [contradiction|].
    specialize (E r Hr). rewrite forallb_forall in E.
    rewrite (E cell Hcell) in Hna. discriminate.
Qed.

(** A sheet whose every cell is empty/null is skipped. *)
Lemma all_cells_missing_skipped (df : DataFrame) :
  all_cells_missing df -> skipped df = true.
Proof.
  unfold all_cells_missing. intros H. apply skipped_true_iff. right.
  intros r Hr. apply forallb_forall. intros c Hc.
  rewrite Forall_forall in H. specialize (H r (or_intror Hr)).
  rewrite Forall_forall in H. exact (H c Hc).
Qed.

(** A skipped sheet leaves the loop as if it were not in the workbook. *)
Lemma convert_loop_skip (s : Sheet) (df : DataFrame) :
  read_sheet s = Some df -> skipped df = true ->
  forall before after st,
    convert_loop st (before ++ s :: after) = convert_loop st (before ++ after).
Proof.
  intros Hr Hs before after. induction before as [|b l IH]; intros st; simpl.
  - unfold sheet_step. rewrite Hr, Hs. reflexivity.
  - destruct (sheet_step st b) as [e|st']; [reflexivity | apply IH].
Qed.

(** C6: a sheet whose every cell in every row is empty/null gets no document
    and raises nothing: its turn of the loop leaves the state as it was, and
    the loop goes on with the sheets that follow as if the sheet were not
    there. *)
Theorem empty_sheet_skipped (s : Sheet) (df : DataFrame) :
  read_sheet s = Some df ->
  all_cells_missing df ->
  (forall st, sheet_step st s = inr st)
  /\ (forall st before after,
        convert_loop st (before ++ s :: after)
        = convert_loop st (before ++ after)).
Proof.
  intros Hr Hm. pose proof (all_cells_missing_skipped df Hm) as Hs. split.
  - intros st. unfold sheet_step. rewrite Hr, Hs. reflexivity.
  - intros st before after. apply (convert_loop_skip s df Hr Hs).
Qed.

(* ================================================================= *)
(** ** The work directory and the archive *)

Lemma pystr_eqb_eq (a b : pystr) : pystr_eqb a b = true <-> a = b.
Proof.
  unfold pystr_eqb. destruct (list_eq_dec Z.eq_dec a b) as [e|n].
  - split; [intros _; exact e | reflexivity].
  - split; [discriminate | intros e; exfalso; exact (n e)].
Qed.

Lemma pystr_eqb_refl (a : pystr) : pystr_eqb a a = true.
Proof. apply pystr_eqb_eq. reflexivity. Qed.

(** A path that was written can be read back. *)
Lemma fs_read_written (fs : Files) (p : pystr) :
  In p (map fst fs) -> exists d, fs_read fs p = Some d.
Proof.
  induction fs as [|[q d] r IH]; simpl.
  - intros [].
  - intros [H|H].
    + subst q. rewrite pystr_eqb_refl. exists d. reflexivity.
    + destruct (pystr_eqb q p); [exists d; reflexivity | apply IH; exact H].
Qed.

(** When no path was written twice, what is read back is what was written. *)
Lemma fs_read_unique (fs : Files) (p : pystr) (d : Document) :
  NoDup (map fst fs) -> In (p, d) fs -> fs_read fs p = Some d.
Proof.
  induction fs as [|[q d'] r IH]; simpl; intros Hnd Hin.
  - contradiction.
  - inversion Hnd as [|x l Hq Hr]; subst.
    destruct Hin as [H|H].
    + injection H as -> ->. rewrite pystr_eqb_refl. reflexivity.
    + destruct (pystr_eqb q p) eqn:E.
      * apply pystr_eqb_eq in E. subst q. exfalso. apply Hq.
        apply (in_map fst) in H. exact H.
      * apply IH; assumption.
Qed.

(** The archive gets one entry per path, in the order of the paths, each
    under the base name of its path. *)
Lemma zip_write_entries (fs : Files) (paths : list pystr) (ds : list Document) :
  Forall2 (fun p d => fs_read fs p = Some d) paths ds ->
  zip_write fs paths = inr (combine (map basename paths) ds).
Proof.
  induction 1 as [|p d ps ds' Hp _ IH]; simpl.
  - reflexivity.
  - rewrite Hp, IH. reflexivity.
Qed.

Lemma readable_paths (fs : Files) (paths : list pystr) :
  (forall p, In p paths -> In p (map fst fs)) ->
  exists ds, Forall2 (fun p d => fs_read fs p = Some d) paths ds.
Proof.
  induction paths as [|p ps IH]; intros H.
  - exists []. constructor.
  - destruct (fs_read_written fs p (H p (or_introl eq_refl))) as [d Hd].
    destruct IH as [ds Hds]; [intros q Hq; apply H; right; exact Hq|].
    exists (d :: ds). constructor; assumption.
Qed.

Lemma sanitize_filename_no_slash (name : pystr) :
  ~ In slash (pdf_filename name).
Proof.
  unfold pdf_filename. intros H. apply in_app_or in H. destruct H as [H|H].
  - apply sanitize_filename_no_invalid in H. discriminate.
  - simpl in H. unfold slash in H.
    destruct H as [H|[H|[H|[H|[]]]]]; discriminate.
Qed.

(** The entry of a sheet's document in the archive is named after the
    sanitized sheet name. *)
Lemma basename_pdf_path (name : pystr) :
  basename (pdf_path name) = pdf_filename name.
Proof.
  unfold pdf_path. apply basename_path_join. apply sanitize_filename_no_slash.
Qed.

Lemma pdf_path_sanitized (n m : pystr) :
  pdf_path n = pdf_path m -> sanitize_filename n = sanitize_filename m.
Proof.
  intros H. apply (f_equal basename) in H.
  rewrite !basename_pdf_path in H. unfold pdf_filename in H.
  apply app_inv_tail in H. exact H.
Qed.

Lemma NoDup_map_finer {A B C} (f : A -> B) (g : A -> C) (l : list A) :
  (forall x y, g x = g y -> f x = f y) ->
  NoDup (map f l) -> NoDup (map g l).
Proof.
  intros Hfg. induction l as [|a l IH]; simpl; intros H.
  - constructor.
  - inversion H as [|x t Ha Ht]; subst. constructor.
    + intros Hin. apply Ha. apply in_map_iff in Hin.
      destruct Hin as [y [Hy Hyl]]. apply in_map_iff. exists y.
      split; [apply Hfg; exact Hy | exact Hyl].
    + apply IH. exact Ht.
Qed.

(* ================================================================= *)
(** ** The loop over the sheets *)

Lemma rendered_sheets_names (sheets : list Sheet) :
  map fst (rendered_sheets sheets)
  = map sheet_name (filter sheet_rendered sheets).
Proof.
  unfold rendered_sheets, sheet_rendered.
  induction sheets as [|s l IH]; simpl.
  - reflexivity.
  - destruct (read_sheet s) as [df|]; simpl.
    + destruct (skipped df); simpl; [exact IH | f_equal; exact IH].
    + exact IH.
Qed.

Lemma render_document_ok (name : pystr) (df : DataFrame) :
  renders name df = true ->
  render_document name df = inr (build_document name df).
Proof.
  unfold renders, render_document.
  destruct (find _ _); [discriminate|].
  destruct (paragraph_ok _); [|discriminate].
  destruct (build_ok _ _); [reflexivity | discriminate].
Qed.

(** When every sheet can be read and every rendering goes through, the loop
    ends without exception, having written one document per rendered sheet
    and listed their paths in workbook order. *)
Lemma convert_loop_readable (sheets : list Sheet) :
  Forall (fun s => sheet_ok s = true) sheets ->
  forall st,
    convert_loop st sheets
    = ({| files := rev (map written_file (rendered_sheets sheets)) ++ files st;
          pdf_paths := pdf_paths st
                       ++ map (fun d => pdf_path (fst d))
                              (rendered_sheets sheets) |},
       None).
Proof.
  induction 1 as [|s l Hs _ IH]; intros st.
  - simpl. rewrite app_nil_r. destruct st; reflexivity.
  - simpl. unfold sheet_step.
    unfold rendered_sheets at 1 2. simpl.
    fold (rendered_sheets l).
    unfold sheet_ok in Hs.
    destruct (read_sheet s) as [df|]; [|discriminate].
    destruct (skipped df).
    + simpl. apply IH.
    + simpl in Hs. rewrite (render_document_ok _ _ Hs).
      rewrite IH. simpl. unfold fs_write, written_file at 2. simpl.
      rewrite <- !app_assoc. reflexivity.
Qed.

Lemma fst_combine {A B} (a : list A) (b : list B) :
  length a = length b -> map fst (combine a b) = a.
Proof.
  revert b. induction a as [|x a IH]; intros [|y b] H; simpl in *;
    try discriminate; try reflexivity.
  f_equal. apply IH. injection H as H. exact H.
Qed.

Lemma read_back_written (fs : Files) (docs : list (pystr * DataFrame))
    (ds : list Document) :
  (forall d, In d docs ->
     fs_read fs (pdf_path (fst d)) = Some (build_document (fst d) (snd d))) ->
  Forall2 (fun p d => fs_read fs p = Some d)
          (map (fun d => pdf_path (fst d)) docs) ds ->
  ds = map (fun d => build_document (fst d) (snd d)) docs.
Proof.
  revert ds. induction docs as [|d l IH]; intros ds Hrd Hds.
  - inversion Hds. reflexivity.
  - inversion Hds as [|p x ps xs Hp Hrest]; subst. simpl. f_equal.
    + rewrite (Hrd d (or_introl eq_refl)) in Hp. injection Hp as Hp.
      symmetry. exact Hp.
    + apply IH; [|exact Hrest]. intros d' Hd'. apply Hrd. right. exact Hd'.
Qed.

Lemma combine_map {A B C} (f : A -> B) (g : A -> C) (l : list A) :
  combine (map f l) (map g l) = map (fun x => (f x, g x)) l.
Proof.
  induction l as [|x l IH]; simpl; [reflexivity | f_equal; exact IH].
Qed.

(** The archive made of the files the loop wrote. *)
Lemma zip_write_rendered (docs : list (pystr * DataFrame)) :
  exists entries,
    zip_write (rev (map written_file docs))
              (map (fun d => pdf_path (fst d)) docs) = inr entries
    /\ map fst entries = map (fun d => pdf_filename (fst d)) docs
    /\ (NoDup (map (fun d => sanitize_filename (fst d)) docs) ->
        entries = map archive_entry docs).
Proof.
  set (fs := rev (map written_file docs)).
  set (paths := map (fun d => pdf_path (fst d)) docs).
  assert (map fst fs = rev paths) as Hkeys.
  { unfold fs, paths. rewrite map_rev, map_map. reflexivity. }
  destruct (readable_paths fs paths) as [ds Hds].
  { intros p Hp. rewrite Hkeys. apply -> in_rev. exact Hp. }
  exists (combine (map basename paths) ds).
  pose proof (Forall2_length Hds) as Hlen.
  split; [apply zip_write_entries; exact Hds|]. split.
  - rewrite fst_combine by (rewrite length_map; exact Hlen).
    unfold paths. rewrite map_map. apply map_ext.
    intros d. apply basename_pdf_path.
  - intros Hnd.
    assert (NoDup (map fst fs)) as Hfs.
    { rewrite Hkeys. apply NoDup_rev. unfold paths.
      apply (NoDup_map_finer (fun d => sanitize_filename (fst d))); [|exact Hnd].
      intros x y. apply pdf_path_sanitized. }
    assert (ds = map (fun d => build_document (fst d) (snd d)) docs) as ->.
    { assert (forall d, In d docs -> fs_read fs (pdf_path (fst d))
                                     = Some (build_document (fst d) (snd d))) as Hrd.
      { intros d Hd. apply fs_read_unique; [exact Hfs|].
        unfold fs. apply -> in_rev. apply (in_map written_file) in Hd. exact Hd. }
      exact (read_back_written fs docs ds Hrd Hds). }
    unfold paths. rewrite map_map, combine_map. apply map_ext.
    intros d. unfold archive_entry. rewrite basename_pdf_path. reflexivity.
Qed.

(* ================================================================= *)
(** ** [convert] *)

(** A request that passes the three checks at the head of [convert] reaches
    the reading of the workbook. *)
Ltac enter_convert Hfile Hname Hallowed :=
  unfold convert; rewrite Hfile;
  let E := fresh "E" in
  destruct (pystr_eqb (filename _) []) eqn:E;
  [apply pystr_eqb_eq in E; contradiction|];
  rewrite Hallowed; cbn [negb].

Lemma sheet_rendered_iff (s : Sheet) :
  sheet_rendered s = true <->
  exists df,
    read_sheet s = Some df
    /\ columns df <> []
    /\ exists r cell, In r (rows df) /\ In cell r /\ isna cell = false.
Proof.
  unfold sheet_rendered. destruct (read_sheet s) as [df|].
  - rewrite negb_true_iff, skipped_false_iff. split.
    + intros H. exists df. split; [reflexivity | exact H].
    + intros [df' [E H]]. injection E as <-. exact H.
  - split; [discriminate | intros [df [E _]]; discriminate].
Qed.

Lemma rendered_sheets_nil (sheets : list Sheet) :
  Forall (fun s => exists df, read_sheet s = Some df /\ skipped df = true)
         sheets ->
  rendered_sheets sheets = [].
Proof.
  unfold rendered_sheets. induction 1 as [|s l [df [Hr Hs]] _ IH]; simpl.
  - reflexivity.
  - rewrite Hr, Hs. exact IH.
Qed.

(** A workbook whose sheets are all skipped ends in the warning. *)
Lemma convert_all_skipped (req : Request) (file : Upload) (sheets : list Sheet) :
  files_excel req = Some file ->
  filename file <> [] ->
  allowed_file (filename file) = true ->
  workbook file = Readable sheets ->
  Forall (fun s => exists df, read_sheet s = Some df /\ skipped df = true)
         sheets ->
  convert req = flash_redirect no_sheets_message (lit "warning") [].
Proof.
  intros Hfile Hname Hallowed Hwb Hall.
  enter_convert Hfile Hname Hallowed. rewrite Hwb.
  rewrite convert_loop_readable.
  - rewrite (rendered_sheets_nil sheets Hall). reflexivity.
  - eapply Forall_impl; [|exact Hall]. intros s [df [Hr Hs]].
    unfold sheet_ok. rewrite Hr, Hs. reflexivity.
Qed.

(** Whatever the request, a redirect comes with exactly one flashed message,
    and only the message for a workbook with no sheet to render is a
    warning. *)
Lemma convert_unreadable (req : Request) (file : Upload) (e : pystr) :
  files_excel req = Some file ->
  workbook file = Unreadable e ->
  exists msg,
    convert req = flash_redirect msg (lit "danger") []
    /\ (filename file <> [] -> allowed_file (filename file) = true ->
        msg = lit "Failed to read Excel file: " ++ e).
Proof.
  intros Hfile Hwb. unfold convert. rewrite Hfile.
  destruct (pystr_eqb (filename file) []) eqn:E.
  - eexists. split; [reflexivity|]. intros H. apply pystr_eqb_eq in E.
    contradiction.
  - destruct (allowed_file (filename file)) eqn:Ea; cbn [negb].
    + rewrite Hwb. eexists. split; reflexivity.
    + eexists. split; [reflexivity|]. intros _ H. discriminate.
Qed.

(** An archive is sent only for a workbook that was read, all of whose
    sheets were read, and with no message flashed. *)
Lemma send_file_inv (req : Request) (name : pystr)
    (entries : list (pystr * Document)) :
  response (convert req) = SendFile name entries ->
  flashed (convert req) = []
  /\ exists file sheets st,
       files_excel req = Some file
       /\ workbook file = Readable sheets
       /\ convert_loop {| files := []; pdf_paths := [] |} sheets = (st, None)
       /\ zip_write (files st) (pdf_paths st) = inr entries.
Proof.
  unfold convert. destruct (files_excel req) as [file|]; [|discriminate].
  destruct (pystr_eqb (filename file) []); [discriminate|].
  destruct (allowed_file (filename file)); cbn [negb]; [|discriminate].
  destruct (workbook file) as [e|sheets] eqn:Hwb; [discriminate|].
  destruct (convert_loop _ sheets) as [st [e|]] eqn:Hloop; [discriminate|].
  destruct (pdf_paths st) as [|p ps] eqn:Hp; [discriminate|].
  destruct (zip_write (files st) (p :: ps)) as [e|es] eqn:Hz; [discriminate|].
  simpl. intros H. injection H as _ <-. split; [reflexivity|].
  exists file, sheets, st. rewrite Hp. repeat split; assumption.
Qed.

(** X16: when every sheet of the workbook loads and the rendering of every
    sheet that is not skipped goes through, [convert] builds exactly one
    document per sheet that is not skipped, in workbook order, and the
    archive has one entry per such sheet, named after the sanitized sheet
    names in that order; each entry holds the document of its own sheet when
    the sanitized names are pairwise distinct. *)
Theorem convert_documents_in_order (req : Request) (file : Upload)
    (sheets : list Sheet) :
  files_excel req = Some file ->
  filename file <> [] ->
  allowed_file (filename file) = true ->
  workbook file = Readable sheets ->
  Forall (fun s => sheet_ok s = true) sheets ->
  let docs := rendered_sheets sheets in
  let out := convert req in
  map fst docs = map sheet_name (filter sheet_rendered sheets)
  /\ written out = rev (map written_file docs)
  /\ length (written out) = length (filter sheet_rendered sheets)
  /\ (docs <> [] ->
      exists entries,
        response out
        = SendFile (splitext_root (secure_filename (filename file))
                    ++ lit "_pdfs.zip") entries
        /\ length entries = length (filter sheet_rendered sheets)
        /\ map fst entries = map (fun d => pdf_filename (fst d)) docs
        /\ (NoDup (map (fun d => sanitize_filename (fst d)) docs) ->
            entries = map archive_entry docs)).
Proof.
  intros Hfile Hname Hallowed Hwb Hall docs out.
  pose proof (rendered_sheets_names sheets) as Hnames. fold docs in Hnames.
  assert (length docs = length (filter sheet_rendered sheets)) as Hlen.
  { rewrite <- (length_map fst docs), Hnames. apply length_map. }
  destruct (zip_write_rendered docs) as [entries [Hz [Hn Hd]]].
  assert (out
          = match docs with
            | [] => flash_redirect no_sheets_message (lit "warning") []
            | _ => {| response :=
                        SendFile (splitext_root (secure_filename (filename file))
                                  ++ lit "_pdfs.zip") entries;
                      flashed := [];
                      written := rev (map written_file docs) |}
            end) as Hout.
  { unfold out. enter_convert Hfile Hname Hallowed. rewrite Hwb.
    rewrite (convert_loop_readable sheets Hall). fold docs.
    cbn [files pdf_paths app]. rewrite app_nil_r.
    destruct docs as [|d l] eqn:Hdocs; [reflexivity|].
    rewrite Hz. reflexivity. }
  split; [exact Hnames|].
  assert (written out = rev (map written_file docs)) as Hw.
  { rewrite Hout. destruct docs; reflexivity. }
  split; [exact Hw|]. split.
  - rewrite Hw, length_rev, length_map. exact Hlen.
  - intros Hne. exists entries. repeat split.
    + rewrite Hout. destruct docs; [contradiction | reflexivity].
    + rewrite <- Hlen, <- (length_map fst entries), Hn. apply length_map.
    + exact Hn.
    + exact Hd.
Qed.

(** C8: when the workbook cannot be parsed, [convert] stops there: it
    answers with a redirect and one flashed message of category [danger]
    (the parse failure with its reason, for a request that passed the
    checks on the file name), it has written no document, and it sends no
    archive.  For any request, an archive is sent only with no message
    flashed, after the workbook and every sheet of it were read. *)
Theorem unreadable_workbook_aborts (req : Request) (file : Upload) (e : pystr) :
  files_excel req = Some file ->
  workbook file = Unreadable e ->
  response (convert req) = Redirect (lit "index")
  /\ written (convert req) = []
  /\ (exists msg, flashed (convert req) = [(msg, lit "danger")])
  /\ (filename file <> [] -> allowed_file (filename file) = true ->
      flashed (convert req)
      = [(lit "Failed to read Excel file: " ++ e, lit "danger")])
  /\ (forall name entries, response (convert req) <> SendFile name entries)
  /\ (forall req' name entries,
        response (convert req') = SendFile name entries ->
        flashed (convert req') = []
        /\ exists file' sheets st,
             files_excel req' = Some file'
             /\ workbook file' = Readable sheets
             /\ convert_loop {| files := []; pdf_paths := [] |} sheets
                = (st, None)).
Proof.
  intros Hfile Hwb.
  destruct (convert_unreadable req file e Hfile Hwb) as [msg [Hc Hmsg]].
  rewrite Hc. simpl. repeat split.
  - exists msg. reflexivity.
  - intros Hn Ha. rewrite (Hmsg Hn Ha). reflexivity.
  - discriminate.
  - apply (send_file_inv req' name entries H).
  - destruct (send_file_inv req' name entries H)
      as [_ [file' [sheets [st [H1 [H2 [H3 _]]]]]]].
    exists file', sheets, st. repeat split; assumption.
Qed.

(** C9: when the workbook is read and every sheet of it is empty, so that no
    document is accumulated, [convert] answers with a redirect and one
    flashed message of category [warning], not [danger]; this outcome
    differs from that of any request whose workbook cannot be parsed, which
    flashes [danger]. *)
Theorem all_sheets_empty_warns (req : Request) (file : Upload)
    (sheets : list Sheet) :
  files_excel req = Some file ->
  filename file <> [] ->
  allowed_file (filename file) = true ->
  workbook file = Readable sheets ->
  Forall (fun s => exists df, read_sheet s = Some df /\ all_cells_missing df)
         sheets ->
  convert req = flash_redirect no_sheets_message (lit "warning") []
  /\ map snd (flashed (convert req)) = [lit "warning"]
  /\ (forall req' file' e,
        files_excel req' = Some file' ->
        workbook file' = Unreadable e ->
        map snd (flashed (convert req')) = [lit "danger"]
        /\ convert req <> convert req').
Proof.
  intros Hfile Hname Hallowed Hwb Hall.
  assert (convert req = flash_redirect no_sheets_message (lit "warning") [])
    as Hc.
  { apply (convert_all_skipped req file sheets); try assumption.
    eapply Forall_impl; [|exact Hall]. intros s [df [Hr Hm]].
    exists df. split; [exact Hr | apply all_cells_missing_skipped; exact Hm]. }
  rewrite Hc. split; [reflexivity|]. split; [reflexivity|].
  intros req' file' e Hfile' Hwb'.
  destruct (convert_unreadable req' file' e Hfile' Hwb') as [msg [Hc' _]].
  rewrite Hc'. split; [reflexivity|].
  unfold flash_redirect. intros H. discriminate.
Qed.


(* ================================================================= *)
(** ** [allowed_file] *)

Lemma after_last_none_inv (sep : codepoint) (s : pystr) :
  after_last sep s = None -> ~ In sep s.
Proof.
  induction s as [|c r IH]; simpl.
  - intros _ [].
  - destruct (after_last sep r) as [t|]; [discriminate|].
    destruct (Z.eqb_spec c sep) as [E|E]; [discriminate|].
    intros _ [H|H]; [exact (E H) | exact (IH eq_refl H)].
Qed.

Lemma after_last_some (sep : codepoint) (s t : pystr) :
  after_last sep s = Some t <->
  exists stem, s = stem ++ sep :: t /\ ~ In sep t.
Proof.
  split.
  - revert t. induction s as [|c r IH]; simpl; intros t H.
    + discriminate.
    + destruct (after_last sep r) as [t'|] eqn:E.
      * injection H as <-. destruct (IH t' eq_refl) as [stem [Hs Ht]].
        exists (c :: stem). split; [simpl; f_equal; exact Hs | exact Ht].
      * destruct (Z.eqb_spec c sep) as [Ec|Ec]; [|discriminate].
        injection H as <-. subst c. exists []. split; [reflexivity|].
        apply after_last_none_inv. exact E.
  - intros [stem [Hs Ht]]. subst s. apply after_last_app. exact Ht.
Qed.

(** X1: a file name is accepted exactly when it has a dot and the text
    after its last dot, lower-cased, is [xls] or [xlsx]; what stands before
    the last dot plays no part. *)
Theorem allowed_file_extension (name : pystr) :
  allowed_file name = true <->
  exists stem ext,
    name = stem ++ 46 :: ext
    /\ ~ In 46 ext
    /\ (str_lower ext = lit "xls" \/ str_lower ext = lit "xlsx").
Proof.
  unfold allowed_file, ALLOWED_EXTENSIONS. split.
  - intros H. apply andb_true_iff in H. destruct H as [_ H].
    destruct (after_last 46 name) as [ext|] eqn:E; [|discriminate].
    apply after_last_some in E. destruct E as [stem [Hs He]].
    exists stem, ext. split; [exact Hs|]. split; [exact He|].
    simpl in H. rewrite !orb_true_iff in H.
    destruct H as [H|[H|H]]; [left | right | discriminate];
      apply pystr_eqb_eq in H; exact H.
  - intros [stem [ext [Hs [He Hl]]]].
    assert (after_last 46 name = Some ext) as E.
    { apply after_last_some. exists stem. split; assumption. }
    rewrite E. apply andb_true_iff. split.
    + unfold char_in. apply existsb_exists. exists 46. split.
      * rewrite Hs. apply in_or_app. right. left. reflexivity.
      * reflexivity.
    + simpl. rewrite !orb_true_iff.
      destruct Hl as [Hl|Hl]; rewrite Hl; [left | right; left];
        apply pystr_eqb_refl.
Qed.

(* ================================================================= *)
(** ** More on [sanitize_filename] and the paths *)

(** X2: sanitizing a sanitized name changes nothing. *)
Theorem sanitize_filename_idempotent (name : pystr) :
  sanitize_filename (sanitize_filename name) = sanitize_filename name.
Proof.
  pose proof (sanitize_filename_no_invalid name) as Hinv.
  unfold sanitize_filename in *.
  destruct (strip_split (filter (fun c => negb (char_in c invalid)) name))
    as [l [r [_ [_ [_ [Hh Ht]]]]]].
  destruct (strip (filter (fun c => negb (char_in c invalid)) name))
    as [|x s] eqn:E.
  - reflexivity.
  - apply (sanitize_filename_fixed (x :: s)).
    + discriminate.
    + exact Hinv.
    + exact Hh.
    + exact Ht.
Qed.

Lemma path_join_shape (a b : pystr) :
  hd_error b <> Some slash ->
  path_join a b = a ++ b \/ path_join a b = a ++ slash :: b.
Proof.
  intros Hb. unfold path_join.
  assert (match rev a with
          | [] => a ++ b
          | 47 :: _ => a ++ b
          | _ => a ++ slash :: b
          end = a ++ b
          \/ match rev a with
             | [] => a ++ b
             | 47 :: _ => a ++ b
             | _ => a ++ slash :: b
             end = a ++ slash :: b) as Hin.
  { destruct (rev a) as [|z t]; [left; reflexivity|].
    destruct z as [|q|q]; try (right; reflexivity).
    do 6 (destruct q as [q|q|]; try (right; reflexivity)).
    left. reflexivity. }
  destruct b as [|c b']; [exact Hin|].
  destruct c as [|p|p]; try exact Hin.
  do 6 (destruct p as [p|p|]; try exact Hin).
  exfalso. apply Hb. reflexivity.
Qed.

(** X3: whatever the sheet name, the sanitized name is not empty and has
    none of the nine illegal characters, so the PDF of the sheet is a file
    directly inside the work directory: its path is the work directory
    followed by the file name, and the base name of the path is the file
    name. *)
Theorem pdf_path_inside_workdir (name : pystr) :
  sanitize_filename name <> []
  /\ (forall c, In c (sanitize_filename name) -> ~ In c invalid)
  /\ ~ In slash (pdf_filename name)
  /\ (pdf_path name = workdir ++ pdf_filename name
      \/ pdf_path name = workdir ++ slash :: pdf_filename name)
  /\ basename (pdf_path name) = pdf_filename name.
Proof.
  split; [|split; [|split; [|split]]].
  - unfold sanitize_filename.
    destruct (strip (filter (fun c => negb (char_in c invalid)) name));
      discriminate.
  - intros c Hc. apply char_in_false.
    apply (sanitize_filename_no_invalid name c Hc).
  - apply sanitize_filename_no_slash.
  - unfold pdf_path. apply path_join_shape.
    pose proof (sanitize_filename_no_slash name) as Hn.
    destruct (pdf_filename name) as [|c r]; [discriminate|].
    simpl. intros H. injection H as H. apply Hn. left. exact H.
  - apply basename_pdf_path.
Qed.

(* ================================================================= *)
(** ** More on the shaping of cells *)

Lemma lit_not_arabic (s : string) : has_arabic (lit s) = false.
Proof.
  unfold has_arabic. induction s as [|c r IH]; simpl.
  - reflexivity.
  - rewrite IH, orb_false_r. unfold is_arabic.
    pose proof (N_ascii_bounded c) as Hc.
    assert (Z.of_N (N_of_ascii c) < 256) as Hz by lia.
    repeat (apply orb_false_iff; split);
      apply andb_false_iff; left; apply Z.leb_gt; lia.
Qed.

(** X4: a whole number or a boolean in a cell is shown as its plain text
    (decimal digits, [True], [False]); the reshaping and reordering
    functions are never applied to it. *)
Theorem reshape_rtl_numbers (n : Z) (b : bool) :
  reshape_rtl (CInt n) = lit (NilZero.string_of_int (Z.to_int n))
  /\ reshape_rtl (CBool b) = (if b then lit "True" else lit "False")
  /\ table_cell (CInt n) = py_str (CInt n)
  /\ table_cell (CBool b) = py_str (CBool b).
Proof.
  assert (reshape_rtl (CInt n) = py_str (CInt n)) as Hn.
  { apply reshape_rtl_passthrough; [discriminate | apply lit_not_arabic]. }
  assert (reshape_rtl (CBool b) = py_str (CBool b)) as Hb.
  { apply reshape_rtl_passthrough; [discriminate|].
    destruct b; apply lit_not_arabic. }
  repeat split.
  - exact Hn.
  - rewrite Hb. destruct b; reflexivity.
  - exact Hn.
  - exact Hb.
Qed.

Example py_str_int :
  py_str (CInt 30) = lit "30" /\ py_str (CInt 0) = lit "0"
  /\ py_str (CInt (-5)) = lit "-5".
Proof. repeat split. Qed.

(** X5: the text of a table paragraph is the cell text with each newline
    replaced by the five characters of the tag [<br/>] and every other
    character kept in place: a cell text without newline is used as it is,
    the text of [a], a newline, [b] is the text of [a], then [<br/>], then
    the text of [b], and no newline is left. *)
Theorem cell_paragraph_newlines (cell a b : pystr) :
  (~ In 10 cell -> para_text (cell_paragraph cell) = cell)
  /\ para_text (cell_paragraph (a ++ 10 :: b))
     = para_text (cell_paragraph a) ++ [60; 98; 114; 47; 62]
       ++ para_text (cell_paragraph b)
  /\ ~ In 10 (para_text (cell_paragraph cell))
  /\ length (para_text (cell_paragraph cell))
     = (length cell + 4 * count_occ Z.eq_dec cell 10%Z)%nat.
Proof.
  unfold cell_paragraph, replace_char. simpl para_text.
  split; [|split; [|split]].
  - induction cell as [|c r IH]; intros H; [reflexivity|].
    cbn [flat_map]. destruct (Z.eqb_spec c 10) as [E|E].
    + exfalso. apply H. left. exact E.
    + simpl. f_equal. apply IH. intros Hr. apply H. right. exact Hr.
  - rewrite flat_map_app. cbn [flat_map]. rewrite Z.eqb_refl. reflexivity.
  - induction cell as [|c r IH]; [intros []|].
    cbn [flat_map]. destruct (Z.eqb_spec c 10) as [E|E].
    + intros H. apply in_app_or in H. destruct H as [H|H]; [|exact (IH H)].
      simpl in H. destruct H as [H|[H|[H|[H|[H|[]]]]]]; discriminate.
    + intros [H|H]; [exact (E H) | exact (IH H)].
  - induction cell as [|c r IH]; [reflexivity|].
    cbn [flat_map]. destruct (Z.eqb_spec c 10) as [E|E].
    + subst c. rewrite length_app, IH. simpl.
      destruct (Z.eq_dec 10 10) as [_|N]; [lia | exfalso; apply N; reflexivity].
    + simpl. rewrite IH.
      destruct (Z.eq_dec c 10) as [Y|_]; [exfalso; exact (E Y) | lia].
Qed.

(** X6: a data row whose cells are all missing stays in the table of the
    document: [dropna] serves the emptiness test only, and the document is
    built from the whole frame, so its one table has a row for the header and
    one for every data row, the all-missing row being a row of empty texts;
    this is the document a turn of the loop writes for a sheet that is not
    skipped and renders. *)
Theorem blank_rows_kept (s : Sheet) (st : LoopState) (df : DataFrame)
    (i : nat) (r : list Cell) :
  read_sheet s = Some df ->
  skipped df = false ->
  renders (sheet_name s) df = true ->
  nth_error (rows df) i = Some r ->
  forallb isna r = true ->
  exists doc tbl,
    sheet_step st s
    = inr {| files := (pdf_path (sheet_name s), doc) :: files st;
             pdf_paths := pdf_paths st ++ [pdf_path (sheet_name s)] |}
    /\ doc = build_document (sheet_name s) df
    /\ table_texts doc = [tbl]
    /\ length tbl = S (length (rows df))
    /\ nth_error tbl (S i) = Some (repeat [] (length r)).
Proof.
  intros Hread Hskip Hren Hr Hna.
  exists (build_document (sheet_name s) df).
  exists (map (map (replace_char 10 (lit "<br/>"))) (df_to_table_data df)).
  split; [|split; [reflexivity|split; [|split]]].
  - unfold sheet_step. rewrite Hread, Hskip.
    rewrite (render_document_ok _ _ Hren). reflexivity.
  - apply (proj2 (build_document_content (sheet_name s) df)).
  - unfold df_to_table_data. simpl. rewrite !length_map. reflexivity.
  - unfold df_to_table_data. cbn [map nth_error].
    rewrite !nth_error_map, Hr. simpl. f_equal.
    clear Hr. induction r as [|c r IH]; simpl in *; [reflexivity|].
    apply andb_true_iff in Hna. destruct Hna as [Hc Hrest].
    unfold table_cell at 1. rewrite Hc. simpl. f_equal. apply IH. exact Hrest.
Qed.

(** X7: a turn of the loop reaches the rendering of a sheet exactly when the
    sheet could be read and the frame read has at least one column and a
    data row with a cell that is not missing; then either the rendering goes
    through, the PDF is written and its path appended, or the rendering
    raises and its exception leaves the loop with nothing written.  Any
    other sheet is skipped with the state unchanged, or raises its read
    error. *)
Theorem sheet_rendered_rule (s : Sheet) (st : LoopState) :
  (sheet_rendered s = true <->
   exists df,
     read_sheet s = Some df
     /\ columns df <> []
     /\ exists r cell, In r (rows df) /\ In cell r /\ isna cell = false)
  /\ (sheet_rendered s = true ->
      exists df,
        read_sheet s = Some df
        /\ ((render_document (sheet_name s) df
             = inr (build_document (sheet_name s) df)
             /\ sheet_step st s
                = inr {| files := (pdf_path (sheet_name s),
                                   build_document (sheet_name s) df)
                                  :: files st;
                         pdf_paths := pdf_paths st
                                      ++ [pdf_path (sheet_name s)] |})
            \/ (exists e,
                  render_document (sheet_name s) df = inl e
                  /\ sheet_step st s = inl e
                  /\ ((exists text, e = MarkupError text)
                      \/ e = BuildError (pdf_path (sheet_name s))))))
  /\ (sheet_rendered s = false ->
      sheet_step st s = inr st
      \/ sheet_step st s = inl (ReadError (sheet_name s))).
Proof.
  split; [apply sheet_rendered_iff|].
  unfold sheet_rendered, sheet_step. destruct (read_sheet s) as [df|].
  - destruct (skipped df); simpl; split.
    + discriminate.
    + intros _. left. reflexivity.
    + intros _. exists df. split; [reflexivity|].
      destruct (renders (sheet_name s) df) eqn:Hren.
      * left. rewrite (render_document_ok _ _ Hren). split; reflexivity.
      * right. unfold renders in Hren.
        destruct (render_document (sheet_name s) df) as [e|doc] eqn:Hrd;
          [|discriminate].
        exists e. split; [reflexivity|]. split; [reflexivity|].
        unfold render_document in Hrd.
        destruct (find _ _) as [p|].
        -- injection Hrd as <-. left. eexists. reflexivity.
        -- destruct (paragraph_ok _).
           ++ destruct (build_ok _ _); [discriminate|].
              injection Hrd as <-. right. reflexivity.
           ++ injection Hrd as <-. left. eexists. reflexivity.
    + discriminate.
  - split; [discriminate | intros _; right; reflexivity].
Qed.

(* ================================================================= *)
(** ** More on the loop and the archive *)

(** The paths listed are the paths written, in the order of writing. *)
Lemma convert_loop_keys (sheets : list Sheet) :
  forall st st' r,
    convert_loop st sheets = (st', r) ->
    map fst (files st) = rev (pdf_paths st) ->
    map fst (files st') = rev (pdf_paths st').
Proof.
  induction sheets as [|s l IH]; simpl; intros st st' r H Hk.
  - injection H as <- _. exact Hk.
  - destruct (sheet_step st s) as [e|st1] eqn:Hs.
    + injection H as <- _. exact Hk.
    + apply (IH st1 st' r H).
      unfold sheet_step in Hs. destruct (read_sheet s) as [df|]; [|discriminate].
      destruct (skipped df).
      * injection Hs as <-. exact Hk.
      * destruct (render_document (sheet_name s) df) as [e|doc];
          [discriminate|].
        injection Hs as <-. simpl. rewrite rev_app_distr. simpl.
        f_equal. exact Hk.
Qed.


Lemma convert_loop_finished (sheets : list Sheet) :
  forall st st',
    convert_loop st sheets = (st', None) ->
    Forall (fun s => sheet_ok s = true) sheets.
Proof.
  induction sheets as [|s l IH]; simpl; intros st st' H.
  - constructor.
  - destruct (sheet_step st s) as [e1|st1] eqn:Hs; [discriminate|].
    constructor; [|apply (IH st1 st' H)].
    unfold sheet_step in Hs. unfold sheet_ok, renders.
    destruct (read_sheet s) as [df|]; [|discriminate].
    destruct (skipped df); [reflexivity|].
    destruct (render_document (sheet_name s) df); [discriminate | reflexivity].
Qed.



Lemma fs_read_in (fs : Files) (p : pystr) (d : Document) :
  fs_read fs p = Some d -> In (p, d) fs.
Proof.
  induction fs as [|[q d'] r IH]; simpl.
  - discriminate.
  - destruct (pystr_eqb q p) eqn:E.
    + intros H. injection H as <-. apply pystr_eqb_eq in E. subst q.
      left. reflexivity.
    + intros H. right. apply IH. exact H.
Qed.

Lemma fs_read_skip (fs1 fs2 : Files) (p : pystr) :
  (forall x, In x fs1 -> fst x <> p) ->
  fs_read (fs1 ++ fs2) p = fs_read fs2 p.
Proof.
  induction fs1 as [|[q d] r IH]; simpl; intros H.
  - reflexivity.
  - destruct (pystr_eqb q p) eqn:E.
    + apply pystr_eqb_eq in E. exfalso.
      apply (H (q, d) (or_introl eq_refl)). exact E.
    + apply IH. intros x Hx. apply H. right. exact Hx.
Qed.

Lemma zip_write_nth (fs : Files) (paths : list pystr) :
  forall entries i p,
    zip_write fs paths = inr entries ->
    nth_error paths i = Some p ->
    exists d, fs_read fs p = Some d
              /\ nth_error entries i = Some (basename p, d).
Proof.
  induction paths as [|q l IH]; intros entries i p Hz Hp.
  - destruct i; discriminate.
  - simpl in Hz. destruct (fs_read fs q) as [d|] eqn:Hq; [|discriminate].
    destruct (zip_write fs l) as [e|es] eqn:Hl; [discriminate|].
    injection Hz as <-. destruct i as [|i]; simpl in *.
    + injection Hp as <-. exists d. split; [exact Hq | reflexivity].
    + apply (IH es i p eq_refl Hp).
Qed.

Lemma zip_write_in (fs : Files) (paths : list pystr) :
  forall entries,
    zip_write fs paths = inr entries ->
    length entries = length paths
    /\ forall e, In e entries ->
         exists p, In p paths /\ fs_read fs p = Some (snd e)
                   /\ fst e = basename p.
Proof.
  induction paths as [|q l IH]; intros entries Hz; simpl in Hz.
  - injection Hz as <-. split; [reflexivity | intros e []].
  - destruct (fs_read fs q) as [d|] eqn:Hq; [|discriminate].
    destruct (zip_write fs l) as [e|es] eqn:Hl; [discriminate|].
    injection Hz as <-. destruct (IH es eq_refl) as [Hlen Hin]. split.
    + simpl. f_equal. exact Hlen.
    + intros e [He|He].
      * subst e. exists q. simpl. repeat split; [left; reflexivity | exact Hq].
      * destruct (Hin e He) as [p [Hp H]]. exists p.
        split; [right; exact Hp | exact H].
Qed.


(** When a sheet cannot be loaded, the loop stops at it with what the sheets
    before it left. *)
Lemma convert_loop_stops (before after : list Sheet) (bad : Sheet) :
  Forall (fun s => sheet_ok s = true) before ->
  read_sheet bad = None ->
  forall st,
    convert_loop st (before ++ bad :: after)
    = ({| files := rev (map written_file (rendered_sheets before))
                   ++ files st;
          pdf_paths := pdf_paths st
                       ++ map (fun d => pdf_path (fst d))
                              (rendered_sheets before) |},
       Some (ReadError (sheet_name bad))).
Proof.
  intros Hall Hbad. induction Hall as [|s l Hs _ IH]; intros st.
  - simpl. unfold sheet_step. rewrite Hbad, app_nil_r.
    destruct st; reflexivity.
  - simpl. unfold sheet_step.
    unfold rendered_sheets at 1 2. simpl. fold (rendered_sheets l).
    unfold sheet_ok in Hs.
    destruct (read_sheet s) as [df|]; [|discriminate].
    destruct (skipped df).
    + simpl. apply IH.
    + simpl in Hs. rewrite (render_document_ok _ _ Hs).
      rewrite IH. simpl. unfold fs_write, written_file at 2. simpl.
      rewrite <- !app_assoc. reflexivity.
Qed.

(** X9: when the sheets before it load and render (or are skipped) and a
    sheet cannot be loaded by either read, [convert] ends with the read
    error of that sheet: the documents of the sheets before it have been
    built, no archive is sent, no message is flashed, and the sheets after
    it are never looked at. *)
Theorem unreadable_sheet_stops_conversion (req : Request) (file : Upload)
    (before after : list Sheet) (bad : Sheet) :
  files_excel req = Some file ->
  filename file <> [] ->
  allowed_file (filename file) = true ->
  workbook file = Readable (before ++ bad :: after) ->
  Forall (fun s => sheet_ok s = true) before ->
  read_sheet bad = None ->
  convert req
  = {| response := Unhandled (ReadError (sheet_name bad));
       flashed := [];
       written := rev (map written_file (rendered_sheets before)) |}.
Proof.
  intros Hfile Hname Hallowed Hwb Hall Hbad.
  enter_convert Hfile Hname Hallowed. rewrite Hwb.
  rewrite (convert_loop_stops before after bad Hall Hbad).
  cbn [files]. rewrite app_nil_r. reflexivity.
Qed.

(** X10: every entry of the archive [convert] sends is the document of a
    sheet the loop rendered, under the sanitized name of that sheet, and the
    archive has as many entries as sheets were rendered; so no entry stands
    for a skipped sheet, and every page in the archive is an A4 page. *)
Theorem archive_entries_are_rendered_sheets (req : Request) (name : pystr)
    (entries : list (pystr * Document)) :
  response (convert req) = SendFile name entries ->
  exists file sheets,
    files_excel req = Some file
    /\ workbook file = Readable sheets
    /\ length entries = length (rendered_sheets sheets)
    /\ (forall e, In e entries ->
          exists d, In d (rendered_sheets sheets) /\ e = archive_entry d)
    /\ (forall e, In e entries -> same_paper (pagesize (snd e)) A4).
Proof.
  intros H.
  destruct (send_file_inv req name entries H)
    as [_ [file [sheets [st [Hfile [Hwb [Hloop Hz]]]]]]].
  exists file, sheets. split; [exact Hfile|]. split; [exact Hwb|].
  pose proof (convert_loop_finished sheets _ st Hloop) as Hall.
  rewrite (convert_loop_readable sheets Hall) in Hloop.
  injection Hloop as <-. cbn [files pdf_paths app] in Hz.
  rewrite app_nil_r in Hz.
  destruct (zip_write_in _ _ entries Hz) as [Hlen Hin].
  assert (forall e, In e entries ->
            exists d, In d (rendered_sheets sheets) /\ e = archive_entry d)
    as Hent.
  { intros e He. destruct (Hin e He) as [p [_ [Hrd Hfst]]].
    apply fs_read_in in Hrd. apply in_rev in Hrd.
    apply in_map_iff in Hrd. destruct Hrd as [d [Hd Hdin]].
    exists d. split; [exact Hdin|].
    unfold written_file in Hd. injection Hd as Hp Hdoc.
    unfold archive_entry. destruct e as [n doc]. simpl in *.
    rewrite Hdoc, Hfst, <- Hp. f_equal. apply basename_pdf_path. }
  split; [rewrite Hlen; apply length_map|]. split; [exact Hent|].
  intros e He. destruct (Hent e He) as [d [_ ->]].
  unfold archive_entry. cbn [snd].
  unfold build_document, df_to_table_data. cbn [pagesize].
  apply (choose_page_size_header (map reshape_rtl (columns (snd d)))
                                 (map (map table_cell) (rows (snd d)))).
Qed.

Lemma pdf_path_of_sanitized (n m : pystr) :
  sanitize_filename n = sanitize_filename m -> pdf_path n = pdf_path m.
Proof.
  intros H. unfold pdf_path, pdf_filename. rewrite H. reflexivity.
Qed.

(** What [convert] answers for an accepted request whose sheets all load
    and render, and are not all skipped. *)
Lemma convert_sends (req : Request) (file : Upload) (sheets : list Sheet) :
  files_excel req = Some file ->
  filename file <> [] ->
  allowed_file (filename file) = true ->
  workbook file = Readable sheets ->
  Forall (fun s => sheet_ok s = true) sheets ->
  rendered_sheets sheets <> [] ->
  exists entries,
    zip_write (rev (map written_file (rendered_sheets sheets)))
              (map (fun d => pdf_path (fst d)) (rendered_sheets sheets))
    = inr entries
    /\ convert req
       = {| response :=
              SendFile (splitext_root (secure_filename (filename file))
                        ++ lit "_pdfs.zip") entries;
            flashed := [];
            written := rev (map written_file (rendered_sheets sheets)) |}.
Proof.
  intros Hfile Hname Hallowed Hwb Hall Hne.
  destruct (zip_write_rendered (rendered_sheets sheets)) as [entries [Hz _]].
  exists entries. split; [exact Hz|].
  enter_convert Hfile Hname Hallowed. rewrite Hwb.
  rewrite (convert_loop_readable sheets Hall).
  cbn [files pdf_paths app]. rewrite app_nil_r.
  destruct (rendered_sheets sheets) as [|d l] eqn:Hd; [contradiction|].
  rewrite Hz. reflexivity.
Qed.

(** X11: in a workbook whose sheets all load and render, when two rendered
    sheets have the same sanitized name both write the same file and the
    later one overwrites the earlier: the archive still has one entry per
    sheet, but the entry of the earlier sheet holds the document of the last
    sheet with that sanitized name. *)
Theorem colliding_names_last_wins (req : Request) (file : Upload)
    (sheets : list Sheet) (a b c : list (pystr * DataFrame))
    (d d' : pystr * DataFrame) :
  files_excel req = Some file ->
  filename file <> [] ->
  allowed_file (filename file) = true ->
  workbook file = Readable sheets ->
  Forall (fun s => sheet_ok s = true) sheets ->
  rendered_sheets sheets = a ++ d :: b ++ d' :: c ->
  sanitize_filename (fst d) = sanitize_filename (fst d') ->
  (forall x, In x c ->
     sanitize_filename (fst x) <> sanitize_filename (fst d)) ->
  exists entries,
    response (convert req)
    = SendFile (splitext_root (secure_filename (filename file))
                ++ lit "_pdfs.zip") entries
    /\ length entries = length (rendered_sheets sheets)
    /\ nth_error entries (length a)
       = Some (pdf_filename (fst d), build_document (fst d') (snd d'))
    /\ nth_error entries (length a + S (length b)) = Some (archive_entry d').
Proof.
  intros Hfile Hname Hallowed Hwb Hall Hdocs Hsame Hlater.
  assert (rendered_sheets sheets <> []) as Hne.
  { rewrite Hdocs. destruct a; discriminate. }
  destruct (convert_sends req file sheets Hfile Hname Hallowed Hwb Hall Hne)
    as [entries [Hz Hc]].
  exists entries. rewrite Hc. cbn [response]. split; [reflexivity|].
  destruct (zip_write_in _ _ entries Hz) as [Hlen _].
  split; [rewrite Hlen; apply length_map|].
  rewrite Hdocs in Hz.
  set (fs := rev (map written_file (a ++ d :: b ++ d' :: c))) in *.
  assert (forall p, p = pdf_path (fst d') ->
            fs_read fs p = Some (build_document (fst d') (snd d'))) as Hread.
  { intros p ->. unfold fs.
    replace (a ++ d :: b ++ d' :: c) with ((a ++ d :: b) ++ d' :: c)
      by (rewrite <- app_assoc; reflexivity).
    rewrite map_app, rev_app_distr. cbn [map rev].
    rewrite <- !app_assoc. rewrite fs_read_skip.
    - simpl. unfold written_file at 1. cbn [fst snd].
      rewrite pystr_eqb_refl. reflexivity.
    - intros x Hx. apply in_rev in Hx. apply in_map_iff in Hx.
      destruct Hx as [y [<- Hy]]. unfold written_file. cbn [fst].
      intros E. apply pdf_path_sanitized in E.
      apply (Hlater y Hy). rewrite E. symmetry. exact Hsame. }
  split.
  - destruct (zip_write_nth _ _ entries (length a) (pdf_path (fst d)) Hz)
      as [doc [Hrd Hnth]].
    { rewrite map_app, nth_error_app2 by (rewrite length_map; apply Nat.le_refl).
      rewrite length_map, Nat.sub_diag. reflexivity. }
    rewrite Hnth, basename_pdf_path.
    rewrite (Hread (pdf_path (fst d)) (pdf_path_of_sanitized _ _ Hsame)) in Hrd.
    injection Hrd as <-. reflexivity.
  - destruct (zip_write_nth _ _ entries (length a + S (length b))
                (pdf_path (fst d')) Hz) as [doc [Hrd Hnth]].
    { replace (a ++ d :: b ++ d' :: c) with ((a ++ d :: b) ++ d' :: c)
        by (rewrite <- app_assoc; reflexivity).
      rewrite map_app, nth_error_app2
        by (rewrite length_map, length_app; simpl; apply Nat.le_refl).
      rewrite length_map, length_app. simpl. rewrite Nat.sub_diag.
      reflexivity. }
    rewrite Hnth, basename_pdf_path.
    rewrite (Hread (pdf_path (fst d')) eq_refl) in Hrd.
    injection Hrd as <-. reflexivity.
Qed.

(** X12: the three shapes a call of [convert] can end in.  A redirect goes
    to the index page with exactly one flashed message, of category [danger]
    or [warning], and with no PDF document built; an archive comes with no
    flashed message, is not empty and has one entry per document the loop
    built (two sheets that build the same file give two entries); an
    exception comes with no flashed message. *)
Theorem convert_outcome_shape (req : Request) :
  match response (convert req) with
  | Redirect endpoint =>
      endpoint = lit "index"
      /\ written (convert req) = []
      /\ exists msg category,
           flashed (convert req) = [(msg, category)]
           /\ (category = lit "danger" \/ category = lit "warning")
  | SendFile _ entries =>
      flashed (convert req) = []
      /\ entries <> []
      /\ length entries = length (written (convert req))
  | Unhandled _ => flashed (convert req) = []
  end.
Proof.
  unfold convert. destruct (files_excel req) as [file|].
  2:{ simpl. repeat split. eexists. eexists. split; [reflexivity|].
      left. reflexivity. }
  destruct (pystr_eqb (filename file) []).
  { simpl. repeat split. eexists. eexists. split; [reflexivity|].
    left. reflexivity. }
  destruct (allowed_file (filename file)); cbn [negb].
  2:{ simpl. repeat split. eexists. eexists. split; [reflexivity|].
      left. reflexivity. }
  destruct (workbook file) as [msg|sheets].
  { simpl. repeat split. eexists. eexists. split; [reflexivity|].
    left. reflexivity. }
  destruct (convert_loop _ sheets) as [st [e|]] eqn:Hloop; [reflexivity|].
  pose proof (convert_loop_keys sheets _ st None Hloop eq_refl) as Hk.
  destruct (pdf_paths st) as [|p ps] eqn:Hp.
  - simpl. split; [reflexivity|]. split.
    + simpl in Hk. destruct (files st); [reflexivity | discriminate].
    + eexists. eexists. split; [reflexivity|]. right. reflexivity.
  - destruct (zip_write (files st) (p :: ps)) as [e|es] eqn:Hz; [reflexivity|].
    destruct (zip_write_in _ _ es Hz) as [Hlen _].
    simpl. split; [reflexivity|]. split.
    + destruct es; [discriminate | discriminate].
    + rewrite Hlen, <- (length_map fst (files st)), Hk, length_rev.
      reflexivity.
Qed.

(** X13: a request with no file part, with an empty file name or with a
    file name that is not accepted is answered before the workbook is
    looked at: the answer is a redirect with one [danger] message, nothing
    is written, and it is the same whatever the uploaded bytes hold. *)
Theorem rejected_before_parsing (req : Request) :
  (files_excel req = None
   \/ exists file, files_excel req = Some file
                   /\ (filename file = []
                       \/ allowed_file (filename file) = false)) ->
  response (convert req) = Redirect (lit "index")
  /\ written (convert req) = []
  /\ (exists msg, flashed (convert req) = [(msg, lit "danger")])
  /\ (forall wb, convert (replace_workbook req wb) = convert req).
Proof.
  unfold convert, replace_workbook.
  intros [H|[file [H [Hn|Ha]]]]; rewrite H; simpl.
  - rewrite H. repeat split. eexists. reflexivity.
  - rewrite Hn. simpl. repeat split. eexists. reflexivity.
  - rewrite Ha. destruct (pystr_eqb (filename file) []);
      simpl; repeat split; eexists; reflexivity.
Qed.

Lemma rendered_sheets_nil_iff (sheets : list Sheet) :
  rendered_sheets sheets = [] <->
  Forall (fun s => sheet_rendered s = false) sheets.
Proof.
  unfold rendered_sheets, sheet_rendered.
  induction sheets as [|s l IH]; simpl.
  - split; [constructor | reflexivity].
  - rewrite Forall_cons_iff.
    destruct (read_sheet s) as [df|]; [destruct (skipped df)|]; simpl.
    + rewrite IH. split; [intros H; split; [reflexivity | exact H]|].
      intros [_ H]. exact H.
    + split; [discriminate | intros [H _]; discriminate].
    + rewrite IH. split; [intros H; split; [reflexivity | exact H]|].
      intros [_ H]. exact H.
Qed.

Lemma convert_raises (req : Request) (file : Upload) (sheets : list Sheet) :
  files_excel req = Some file ->
  filename file <> [] ->
  allowed_file (filename file) = true ->
  workbook file = Readable sheets ->
  ~ Forall (fun s => sheet_ok s = true) sheets ->
  exists e, response (convert req) = Unhandled e.
Proof.
  intros Hfile Hname Hallowed Hwb Hnot.
  enter_convert Hfile Hname Hallowed. rewrite Hwb.
  destruct (convert_loop _ sheets) as [st [e|]] eqn:Hloop.
  - exists e. reflexivity.
  - exfalso. apply Hnot. apply (convert_loop_finished sheets _ st Hloop).
Qed.

(** X14: for an accepted request whose workbook and sheets all load,
    [convert] answers with the no-sheet warning exactly when the loop skips
    every sheet (a sheet with a header row alone is one), and sends an
    archive exactly when at least one sheet is not skipped and the rendering
    of every such sheet goes through. *)
Theorem warning_iff_all_skipped (req : Request) (file : Upload)
    (sheets : list Sheet) :
  files_excel req = Some file ->
  filename file <> [] ->
  allowed_file (filename file) = true ->
  workbook file = Readable sheets ->
  Forall (fun s => read_sheet s <> None) sheets ->
  (convert req = flash_redirect no_sheets_message (lit "warning") [] <->
   Forall (fun s => sheet_rendered s = false) sheets)
  /\ ((exists name entries, response (convert req) = SendFile name entries) <->
      (Exists (fun s => sheet_rendered s = true) sheets
       /\ Forall (fun s => sheet_ok s = true) sheets)).
Proof.
  intros Hfile Hname Hallowed Hwb Hread.
  assert (Forall (fun s => sheet_rendered s = false) sheets ->
          Forall (fun s => sheet_ok s = true) sheets) as Hskip_ok.
  { intros H. rewrite Forall_forall in *. intros s Hs.
    specialize (H s Hs). specialize (Hread s Hs).
    unfold sheet_rendered in H. unfold sheet_ok.
    destruct (read_sheet s) as [df|]; [|contradiction].
    apply negb_false_iff in H. rewrite H. reflexivity. }
  assert (Forall (fun s => sheet_rendered s = false) sheets ->
          ~ Exists (fun s => sheet_rendered s = true) sheets) as Hno.
  { intros H E. apply Exists_exists in E. destruct E as [s [Hs Ht]].
    rewrite Forall_forall in H. rewrite (H s Hs) in Ht. discriminate. }
  destruct (Forall_Exists_dec (fun s => sheet_ok s = true)
              (fun s => bool_dec (sheet_ok s) true) sheets) as [Hall|Hbad].
  - destruct (rendered_sheets sheets) as [|d l] eqn:Hd.
    + assert (Forall (fun s => sheet_rendered s = false) sheets) as Hnone
          by (apply rendered_sheets_nil_iff; exact Hd).
      assert (convert req
              = flash_redirect no_sheets_message (lit "warning") []) as Hc.
      { enter_convert Hfile Hname Hallowed. rewrite Hwb.
        rewrite (convert_loop_readable sheets Hall), Hd. reflexivity. }
      split.
      * split; [intros _; exact Hnone | intros _; exact Hc].
      * rewrite Hc. split.
        -- intros [n [es H]]. discriminate.
        -- intros [H _]. exfalso. exact (Hno Hnone H).
    + assert (rendered_sheets sheets <> []) as Hne
          by (rewrite Hd; discriminate).
      destruct (convert_sends req file sheets Hfile Hname Hallowed Hwb Hall
                  Hne) as [entries [_ Hc]].
      assert (~ Forall (fun s => sheet_rendered s = false) sheets) as Hsome.
      { intros H. apply rendered_sheets_nil_iff in H. exact (Hne H). }
      split.
      * rewrite Hc. split; [discriminate | intros H; contradiction].
      * split.
        -- intros _. split; [|exact Hall]. apply Exists_exists.
           destruct (Forall_Exists_dec (fun s => sheet_rendered s = false)
                       (fun s => bool_dec (sheet_rendered s) false) sheets)
             as [F|E]; [contradiction|].
           apply Exists_exists in E. destruct E as [s [Hs Ht]].
           exists s. split; [exact Hs|]. destruct (sheet_rendered s);
             [reflexivity | exfalso; apply Ht; reflexivity].
        -- intros _. rewrite Hc. eexists. eexists. reflexivity.
  - assert (~ Forall (fun s => sheet_ok s = true) sheets) as Hnot.
    { intros H. apply Exists_exists in Hbad. destruct Hbad as [s [Hs Ht]].
      rewrite Forall_forall in H. exact (Ht (H s Hs)). }
    destruct (convert_raises req file sheets Hfile Hname Hallowed Hwb Hnot)
      as [e He].
    split.
    + split.
      * intros Hc. rewrite Hc in He. discriminate.
      * intros H. exfalso. exact (Hnot (Hskip_ok H)).
    + split.
      * intros [n [es H]]. rewrite H in He. discriminate.
      * intros [_ H]. contradiction.
Qed.

(** X15: a document uses one font throughout: the title, every cell of the
    table and the table style all name [ARABIC_FONT_NAME], which is Amiri
    when the font file was found at start-up and Helvetica otherwise. *)
Theorem document_single_font (name : pystr) (df : DataFrame) :
  Forall (fun f => f = ARABIC_FONT_NAME)
         (document_fonts (build_document name df))
  /\ document_fonts (build_document name df) <> []
  /\ ARABIC_FONT_NAME = (if font_exists then lit "Amiri" else lit "Helvetica").
Proof.
  split; [|split; [discriminate | reflexivity]].
  unfold document_fonts, build_document. cbn [story flat_map flowable_fonts].
  constructor; [reflexivity|]. cbn [app].
  apply Forall_app. split; [|constructor].
  apply Forall_app. split.
  - apply Forall_map. apply Forall_forall. intros p Hp.
    apply in_concat in Hp. destruct Hp as [row [Hrow Hp]].
    apply in_map_iff in Hrow. destruct Hrow as [r [<- _]].
    apply in_map_iff in Hp. destruct Hp as [c [<- _]]. reflexivity.
  - simpl. constructor; [reflexivity | constructor].
Qed.
End App.

(* ================================================================= *)
(** ** The theorems on the sample data *)

Lemma reshape_rtl_non_arabic_witness :
  reshape_rtl sample_reshape sample_get_display (CStr (lit "Q1 total"))
  = py_str (CStr (lit "Q1 total"))
  /\ py_str (CStr (lit "Q1 total")) = lit "Q1 total".
Proof.
  apply (reshape_rtl_non_arabic sample_reshape sample_get_display).
  intros ch Hin. simpl in Hin.
  repeat (destruct Hin as [<-|Hin]; [lia|]). destruct Hin.
Defined.

Lemma df_to_table_data_grid_witness :
  well_formed sample_people
  /\ length (df_to_table_data sample_reshape sample_get_display sample_people)
     = 2%nat
  /\ Forall (fun r => length r = 2%nat)
            (df_to_table_data sample_reshape sample_get_display sample_people).
Proof.
  assert (well_formed sample_people) as Hwf.
  { unfold well_formed. simpl. constructor; [reflexivity | constructor]. }
  split; [exact Hwf|].
  pose proof (df_to_table_data_grid sample_reshape sample_get_display
                sample_people Hwf) as H.
  split; [exact (proj1 H) | exact (proj1 (proj2 H))].
Defined.

Lemma empty_sheet_skipped_witness :
  read_sheet (sheet_of (lit "Sheet2") sample_all_missing)
  = Some sample_all_missing
  /\ all_cells_missing sample_all_missing
  /\ sheet_step sample_reshape sample_get_display sample_paragraph_ok
       sample_build_ok true sample_workdir
       {| files := []; pdf_paths := [] |}
       (sheet_of (lit "Sheet2") sample_all_missing)
     = inr {| files := []; pdf_paths := [] |}.
Proof.
  assert (all_cells_missing sample_all_missing) as Hm.
  { unfold all_cells_missing. simpl. repeat constructor. }
  split; [reflexivity|]. split; [exact Hm|].
  exact (proj1 (empty_sheet_skipped sample_reshape sample_get_display
                  sample_paragraph_ok sample_build_ok true
                  sample_workdir (sheet_of (lit "Sheet2") sample_all_missing)
                  sample_all_missing eq_refl Hm)
               {| files := []; pdf_paths := [] |}).
Defined.

Lemma convert_documents_in_order_witness :
  allowed_file sample_lower (lit "book.xlsx") = true
  /\ Forall (fun s => sheet_ok sample_reshape sample_get_display
                        sample_paragraph_ok sample_build_ok true
                        sample_workdir s = true) sample_workbook
  /\ length (written (convert sample_reshape sample_get_display
                        sample_secure_filename sample_lower
                        sample_splitext_root sample_paragraph_ok
                        sample_build_ok true sample_workdir sample_request))
     = 1%nat.
Proof.
  assert (Forall (fun s => sheet_ok sample_reshape sample_get_display
                             sample_paragraph_ok sample_build_ok true
                             sample_workdir s = true) sample_workbook)
    as Hall.
  { repeat constructor. }
  split; [reflexivity|]. split; [exact Hall|].
  refine (proj1 (proj2 (proj2
    (convert_documents_in_order sample_reshape sample_get_display
       sample_secure_filename sample_lower sample_splitext_root
       sample_paragraph_ok sample_build_ok true sample_workdir sample_request
       {| filename := lit "book.xlsx"; workbook := Readable sample_workbook |}
       sample_workbook eq_refl _ eq_refl eq_refl Hall)))).
  discriminate.
Defined.

Lemma unreadable_workbook_aborts_witness :
  response (convert sample_reshape sample_get_display sample_secure_filename
              sample_lower sample_splitext_root
      sample_paragraph_ok sample_build_ok true sample_workdir
              sample_corrupt_request)
  = Redirect (lit "index")
  /\ written (convert sample_reshape sample_get_display sample_secure_filename
                sample_lower sample_splitext_root
      sample_paragraph_ok sample_build_ok true sample_workdir
                sample_corrupt_request)
     = [].
Proof.
  pose proof (unreadable_workbook_aborts sample_reshape sample_get_display
                sample_secure_filename sample_lower sample_splitext_root
      sample_paragraph_ok sample_build_ok true sample_workdir sample_corrupt_request
                {| filename := lit "book.xlsx";
                   workbook := Unreadable (lit "File is not a zip file") |}
                (lit "File is not a zip file") eq_refl eq_refl) as H.
  split; [exact (proj1 H) | exact (proj1 (proj2 H))].
Defined.

Lemma all_sheets_empty_warns_witness :
  Forall (fun s => exists df, read_sheet s = Some df /\ all_cells_missing df)
         sample_empty_workbook
  /\ convert sample_reshape sample_get_display sample_secure_filename
       sample_lower sample_splitext_root
      sample_paragraph_ok sample_build_ok true sample_workdir
       sample_empty_request
     = flash_redirect no_sheets_message (lit "warning") [].
Proof.
  assert (Forall (fun s => exists df, read_sheet s = Some df
                                      /\ all_cells_missing df)
                 sample_empty_workbook) as Hall.
  { constructor.
    - exists sample_blank. split; [reflexivity|].
      unfold all_cells_missing. simpl. repeat constructor.
    - constructor; [|constructor].
      exists sample_all_missing. split; [reflexivity|].
      unfold all_cells_missing. simpl. repeat constructor. }
  split; [exact Hall|].
  refine (proj1
    (all_sheets_empty_warns sample_reshape sample_get_display
       sample_secure_filename sample_lower sample_splitext_root
      sample_paragraph_ok sample_build_ok true sample_workdir sample_empty_request
       {| filename := lit "book.xlsx";
          workbook := Readable sample_empty_workbook |}
       sample_empty_workbook eq_refl _ eq_refl eq_refl Hall)).
  discriminate.
Defined.

(** The end-to-end scenario: of the two sheets only the first gets a
    document, and the archive has one entry, named after that sheet. *)
Example convert_sample_workbook :
  response (convert sample_reshape sample_get_display sample_secure_filename
              sample_lower sample_splitext_root
      sample_paragraph_ok sample_build_ok true sample_workdir
              sample_request)
  = SendFile (lit "book_pdfs.zip")
             [(lit "People.pdf",
               build_document sample_reshape sample_get_display true
                              (lit "People") sample_people)].
Proof. reflexivity. Qed.

(** A cell that the paragraph parser refuses ends the request with its
    exception: no document, no archive.  (The parser here is the sample
    one.) *)
Example convert_sample_markup :
  convert sample_reshape sample_get_display sample_secure_filename
    sample_lower sample_splitext_root sample_paragraph_ok sample_build_ok
    true sample_workdir sample_markup_request
  = {| response := Unhandled (MarkupError (lit "a<b"));
       flashed := []; written := [] |}.
Proof. reflexivity. Qed.

(** C1: the code run on a workbook whose one sheet has a header cell that
    is not empty and no row below it.  The sheet is one of the non-empty
    sheets the claim counts (N = 1), yet [convert] builds no document for it
    and answers with the warning that no non-empty sheet was found. *)
Lemma header_only_sheet_dropped :
  length (spec_nonempty_sheets sample_header_only_workbook) = 1%nat
  /\ written (convert sample_reshape sample_get_display sample_secure_filename
                sample_lower sample_splitext_root
      sample_paragraph_ok sample_build_ok true sample_workdir
                sample_header_only_request)
     = []
  /\ convert sample_reshape sample_get_display sample_secure_filename
       sample_lower sample_splitext_root
      sample_paragraph_ok sample_build_ok true sample_workdir
       sample_header_only_request
     = flash_redirect no_sheets_message (lit "warning") [].
Proof.
  repeat split.
Qed.

(** C3 (counterexample): NaN is a missing value, and whatever the library
    functions do [reshape_rtl] returns the text ["nan"] for it, not the empty
    string; a NaN column label shows as ["nan"] in the header of the grid. *)
Lemma reshape_rtl_nan_text :
  isna CNaN = true
  /\ (forall reshape display, reshape_rtl reshape display CNaN = lit "nan")
  /\ lit "nan" <> []
  /\ (forall reshape display,
        grid_cell (df_to_table_data reshape display
                     {| columns := [CNaN]; rows := [] |}) 0 0
        = Some (lit "nan")).
Proof.
  repeat split. discriminate.
Qed.

Lemma blank_rows_kept_witness :
  skipped sample_totals = false
  /\ exists doc tbl,
       sheet_step sample_reshape sample_get_display sample_paragraph_ok
         sample_build_ok true sample_workdir
         {| files := []; pdf_paths := [] |}
         (sheet_of (lit "Totals") sample_totals)
       = inr {| files := [(pdf_path sample_workdir (lit "Totals"), doc)];
                pdf_paths := [pdf_path sample_workdir (lit "Totals")] |}
       /\ doc = build_document sample_reshape sample_get_display true
                  (lit "Totals") sample_totals
       /\ table_texts doc = [tbl]
       /\ length tbl = 3%nat
       /\ nth_error tbl 2 = Some [[]; []].
Proof.
  split; [reflexivity|].
  exact (blank_rows_kept sample_reshape sample_get_display
           sample_paragraph_ok sample_build_ok true sample_workdir
           (sheet_of (lit "Totals") sample_totals)
           {| files := []; pdf_paths := [] |}
           sample_totals 1 [CNaN; CNaN] eq_refl eq_refl eq_refl eq_refl
           eq_refl).
Defined.


Lemma unreadable_sheet_stops_conversion_witness :
  convert sample_reshape sample_get_display sample_secure_filename
    sample_lower sample_splitext_root
      sample_paragraph_ok sample_build_ok true sample_workdir
    sample_broken_request
  = {| response := Unhandled (ReadError (lit "Broken"));
       flashed := [];
       written :=
         [written_file sample_reshape sample_get_display true sample_workdir
            (lit "People", sample_people)] |}.
Proof.
  refine (unreadable_sheet_stops_conversion sample_reshape sample_get_display
            sample_secure_filename sample_lower sample_splitext_root
      sample_paragraph_ok sample_build_ok true sample_workdir sample_broken_request
            {| filename := lit "book.xlsx";
               workbook := Readable sample_broken_workbook |}
            [sheet_of (lit "People") sample_people]
            [sheet_of (lit "Later") sample_people]
            sample_unreadable_sheet eq_refl _ eq_refl eq_refl _ eq_refl).
  - discriminate.
  - repeat constructor.
Defined.

Lemma archive_entries_are_rendered_sheets_witness :
  exists file sheets,
    files_excel sample_request = Some file
    /\ workbook file = Readable sheets
    /\ length [archive_entry sample_reshape sample_get_display true
                 (lit "People", sample_people)]
       = length (rendered_sheets sheets)
    /\ (forall e,
          In e [archive_entry sample_reshape sample_get_display true
                  (lit "People", sample_people)] ->
          exists d, In d (rendered_sheets sheets)
                    /\ e = archive_entry sample_reshape sample_get_display
                             true d)
    /\ (forall e,
          In e [archive_entry sample_reshape sample_get_display true
                  (lit "People", sample_people)] ->
          same_paper (pagesize (snd e)) A4).
Proof.
  exact (archive_entries_are_rendered_sheets sample_reshape sample_get_display
           sample_secure_filename sample_lower sample_splitext_root
      sample_paragraph_ok sample_build_ok true sample_workdir sample_request (lit "book_pdfs.zip")
           [archive_entry sample_reshape sample_get_display true
              (lit "People", sample_people)]
           eq_refl).
Defined.

Lemma colliding_names_last_wins_witness :
  sanitize_filename (lit "Q1/2024") = sanitize_filename (lit "Q12024")
  /\ exists entries,
       response (convert sample_reshape sample_get_display
                   sample_secure_filename sample_lower sample_splitext_root
      sample_paragraph_ok sample_build_ok true sample_workdir sample_colliding_request)
       = SendFile (lit "book_pdfs.zip") entries
       /\ length entries = 2%nat
       /\ nth_error entries 0
          = Some (lit "Q12024.pdf",
                  build_document sample_reshape sample_get_display true
                                 (lit "Q12024") sample_totals)
       /\ nth_error entries 1
          = Some (lit "Q12024.pdf",
                  build_document sample_reshape sample_get_display true
                                 (lit "Q12024") sample_totals).
Proof.
  split; [reflexivity|].
  refine (colliding_names_last_wins sample_reshape sample_get_display
            sample_secure_filename sample_lower sample_splitext_root
      sample_paragraph_ok sample_build_ok true sample_workdir sample_colliding_request
            {| filename := lit "book.xlsx";
               workbook := Readable sample_colliding_workbook |}
            sample_colliding_workbook
            [] [] [] (lit "Q1/2024", sample_people) (lit "Q12024", sample_totals)
            eq_refl _ eq_refl eq_refl _ eq_refl eq_refl _).
  - discriminate.
  - repeat constructor.
  - intros x [].
Defined.

Lemma rejected_before_parsing_witness :
  allowed_file sample_lower (lit "notes.txt") = false
  /\ response (convert sample_reshape sample_get_display
                 sample_secure_filename sample_lower sample_splitext_root
      sample_paragraph_ok sample_build_ok true sample_workdir
                 (request_of (lit "notes.txt") (Readable sample_workbook)))
     = Redirect (lit "index")
  /\ forall wb,
       convert sample_reshape sample_get_display sample_secure_filename
         sample_lower sample_splitext_root
      sample_paragraph_ok sample_build_ok true sample_workdir
         (replace_workbook
            (request_of (lit "notes.txt") (Readable sample_workbook)) wb)
       = convert sample_reshape sample_get_display sample_secure_filename
           sample_lower sample_splitext_root
      sample_paragraph_ok sample_build_ok true sample_workdir
           (request_of (lit "notes.txt") (Readable sample_workbook)).
Proof.
  split; [reflexivity|].
  assert (files_excel (request_of (lit "notes.txt") (Readable sample_workbook))
          = None
          \/ exists file,
               files_excel
                 (request_of (lit "notes.txt") (Readable sample_workbook))
               = Some file
               /\ (filename file = []
                   \/ allowed_file sample_lower (filename file) = false))
    as Hrej.
  { right. eexists. split; [reflexivity|]. right. reflexivity. }
  pose proof (rejected_before_parsing sample_reshape sample_get_display
                sample_secure_filename sample_lower sample_splitext_root
      sample_paragraph_ok sample_build_ok true sample_workdir
                (request_of (lit "notes.txt") (Readable sample_workbook))
                Hrej) as H.
  split; [exact (proj1 H) | exact (proj2 (proj2 (proj2 H)))].
Defined.

Lemma warning_iff_all_skipped_witness :
  Forall (fun s => sheet_rendered s = false) sample_header_only_workbook
  /\ convert sample_reshape sample_get_display sample_secure_filename
       sample_lower sample_splitext_root
      sample_paragraph_ok sample_build_ok true sample_workdir
       sample_header_only_request
     = flash_redirect no_sheets_message (lit "warning") [].
Proof.
  assert (Forall (fun s => sheet_rendered s = false)
                 sample_header_only_workbook) as Hnone.
  { repeat constructor. }
  split; [exact Hnone|].
  refine (proj2 (proj1
    (warning_iff_all_skipped sample_reshape sample_get_display
       sample_secure_filename sample_lower sample_splitext_root
      sample_paragraph_ok sample_build_ok true sample_workdir sample_header_only_request
       {| filename := lit "book.xlsx";
          workbook := Readable sample_header_only_workbook |}
       sample_header_only_workbook eq_refl _ eq_refl eq_refl _)) Hnone).
  - discriminate.
  - repeat constructor. discriminate.
Defined.
